(** * AnuragAcademicFlow: the PDF sharing routes

    A shallow embedding of the document routes of [server/routes.ts]
    ([/api/pdfs/...]), of the S3 helpers of [server/s3.ts] and of the
    [pdf_notes] table of the shared schema, followed by the properties of
    the access-controlled storage layer that the specification states.

    Every route is an [async] function whose body sits in one [try]/[catch]:
    it reads the session, calls the metadata store and the S3 helpers in
    sequence, and answers either early ([return res.status(..).json(..)]),
    at its end ([res.json(..)]) or from the [catch] block (status 500).  The
    embedding keeps that shape: a route body is an [Action], a computation
    over the [World] (table rows, bucket contents, effect trace) that reads
    its [Env] (clock, random source, outcome of the AWS calls) and ends by
    returning, replying early or throwing. *)

From Stdlib Require Import Ascii String DecimalString DecimalN.
From stdpp Require Import gmap strings list.

(** ** Data *)

(** Scalar JSON values, as they arrive in [req.body]. *)
Inductive JValue :=
| JNull
| JBool (b : bool)
| JNum (n : Z)
| JStr (s : string).

(** A row of [pdf_notes] ([PdfNote = typeof pdfNotes.$inferSelect]).
    Strings are sequences of characters and integers are in [Z]; the
    [varchar] lengths and the range of [integer] are what the insert schema
    checks before a row is made. *)
Record PdfNote := {
  id : string;
  userId : string;
  title : string;
  description : option string;
  s3Key : string;
  fileName : string;
  fileSize : Z;
  mimeType : string;
  isPublic : bool;
  shareToken : option string;
  downloadCount : Z;
  createdAt : Z;
  updatedAt : Z;
}.

(** The result of [insertPdfNoteSchema.parse]: the columns of [pdfNotes]
    without [id], [createdAt], [updatedAt] and [downloadCount].  Columns
    that are nullable or have a default are optional; for a nullable column
    an absent field and [null] both store NULL. *)
Record InsertPdfNote := {
  ins_userId : string;
  ins_title : string;
  ins_description : option string;
  ins_s3Key : string;
  ins_fileName : string;
  ins_fileSize : Z;
  ins_mimeType : option string;
  ins_isPublic : option bool;
  ins_shareToken : option string;
}.

(** The commands of [@aws-sdk/client-s3] that [s3.ts] builds. *)
Inductive S3Command :=
| PutObjectCommand (Bucket Key ContentType : string)
| GetObjectCommand (Bucket Key : string)
| DeleteObjectCommand (Bucket Key : string).

(** Response bodies, one constructor per object literal passed to
    [res.json] in the document routes. *)
Inductive Body :=
| BMessage (message : string)
| BPdf (pdf : PdfNote)
| BUpload (uploadUrl s3Key : string)
| BShare (shareUrl : option string) (shareToken : string)
| BDownload (downloadUrl : string)
| BSuccess.

Record Response := { status : Z; body : Body }.

Definition json (code : Z) (b : Body) : Response :=
  {| status := code; body := b |}.

(** Effects that took place, in order: handles signed, objects deleted,
    statements run on [pdf_notes]. *)
Inductive Event :=
| Signed (cmd : S3Command)
| S3Deleted (key : string)
| DbInsert (row : string)
| DbUpdate (row : string) (public : bool) (token : string)
| DbIncrement (row : string)
| DbDelete (row : string).

(** What a request finds outside the program. *)
Record Env := {
  BUCKET_NAME : string;
  (** [Date.now()], in milliseconds *)
  date_now : N;
  (** the 128 random bits behind [randomUUID()] *)
  uuid_bits : N;
  (** [getSignedUrl(s3Client, command, { expiresIn })]: the signed URL, or
      [None] when the promise rejects *)
  getSignedUrl : S3Command → Z → option string;
  (** whether [s3Client.send(command)] resolves *)
  s3_send : S3Command → bool;
  (** [gen_random_uuid()] of the database, for the [id] default *)
  gen_random_uuid : string;
  (** [now()] of the database, for [defaultNow()] *)
  db_now : Z;
  (** whether the [DELETE] of [storage.deletePdfNote] goes through; when it
      does not, the promise rejects *)
  db_delete : bool;
  (** [`${req.protocol}://${req.get('host')}`] *)
  req_origin : string;
}.

Record World := {
  pdf_notes : list PdfNote;
  s3_objects : gset string;
  trace : list Event;
}.

(** ** Actions *)

Inductive Outcome (A : Type) :=
| Return (a : A)
| Reply (r : Response)
| Throw.
Arguments Return {A} a.
Arguments Reply {A} r.
Arguments Throw {A}.

Definition Action (A : Type) : Type := Env → World → Outcome A * World.

Definition ret {A} (a : A) : Action A := λ _ w, (Return a, w).

Definition bind {A B} (m : Action A) (k : A → Action B) : Action B :=
  λ e w,
    match m e w with
    | (Return a, w') => k a e w'
    | (Reply r, w') => (Reply r, w')
    | (Throw, w') => (Throw, w')
    end.

(** [return res.status(code).json(b)] *)
Definition reply {A} (r : Response) : Action A := λ _ w, (Reply r, w).

Definition throw {A} : Action A := λ _ w, (Throw, w).

Definition ask : Action Env := λ e w, (Return e, w).

Definition rows : Action (list PdfNote) := λ _ w, (Return (pdf_notes w), w).

Definition set_rows (l : list PdfNote) : Action unit :=
  λ _ w, (Return tt,
          {| pdf_notes := l; s3_objects := s3_objects w; trace := trace w |}).

Definition objects : Action (gset string) :=
  λ _ w, (Return (s3_objects w), w).

Definition set_objects (o : gset string) : Action unit :=
  λ _ w, (Return tt,
          {| pdf_notes := pdf_notes w; s3_objects := o; trace := trace w |}).

Definition emit (ev : Event) : Action unit :=
  λ _ w, (Return tt,
          {| pdf_notes := pdf_notes w; s3_objects := s3_objects w;
             trace := trace w ++ [ev] |}).

Notation "x <- m ;; k" := (bind m (λ x, k))
  (at level 100, m at next level, right associativity).
Notation "m ;;; k" := (bind m (λ _, k))
  (at level 100, right associativity).

(** [if (c) return res.status(..).json(..)] *)
Definition return_if (c : bool) (r : Response) : Action unit :=
  if c then reply r else ret tt.

(** [try { body } catch (error) { res.status(500).json({ message }) }] *)
Definition try_catch (message : string) (body : Action Response)
    (e : Env) (w : World) : Response * World :=
  match body e w with
  | (Return r, w') => (r, w')
  | (Reply r, w') => (r, w')
  | (Throw, w') => (json 500 (BMessage message), w')
  end.

(** ** JavaScript values *)

(** [!userId], [!fileName] on an optional string: [undefined] and the
    empty string are falsy. *)
Definition truthy (s : option string) : bool :=
  match s with
  | Some s => negb (String.eqb s "")
  | None => false
  end.

(** [a || b] on an optional string. *)
Definition or_else (a : option string) (b : string) : string :=
  match a with
  | Some s => if String.eqb s "" then b else s
  | None => b
  end.

(** A number in a template literal: [`${Date.now()}`]. *)
Definition decimal (n : N) : string :=
  NilEmpty.string_of_uint (N.to_uint n).

Definition hex_digit (n : N) : ascii :=
  match n with
  | 0 => "0" | 1 => "1" | 2 => "2" | 3 => "3" | 4 => "4" | 5 => "5"
  | 6 => "6" | 7 => "7" | 8 => "8" | 9 => "9" | 10 => "a" | 11 => "b"
  | 12 => "c" | 13 => "d" | 14 => "e" | _ => "f"
  end%N%char.

(** The low [digits] hexadecimal digits of [v], most significant first. *)
Fixpoint hex (digits : nat) (v : N) (acc : string) : string :=
  match digits with
  | O => acc
  | S d => hex d (v / 16)%N (String (hex_digit (v mod 16)%N) acc)
  end.

(** [crypto.randomUUID()]: a version 4 UUID in its 8-4-4-4-12 form. *)
Definition randomUUID (bits : N) : string :=
  hex 8 (N.shiftr bits 96) ""
  +:+ "-" +:+ hex 4 (N.shiftr bits 80) ""
  +:+ "-4" +:+ hex 3 (N.shiftr bits 64) ""
  +:+ "-" +:+ String (hex_digit (8 + N.shiftr bits 62 mod 4)%N)
                (hex 3 (N.shiftr bits 48) "")
  +:+ "-" +:+ hex 12 bits "".

(** [a !== b] between a column and [req.session?.userId]. *)
Definition same_user (owner : string) (session : option string) : bool :=
  match session with
  | Some s => String.eqb owner s
  | None => false
  end.

(** [const v = ...; if (!v) return res.status(..).json(..)] *)
Definition require (v : option string) (r : Response) : Action string :=
  match v with
  | Some s => if String.eqb s "" then reply r else ret s
  | None => reply r
  end.

(** ** The [pdf_notes] table *)

Definition has_token (p : PdfNote) (token : string) : bool :=
  match shareToken p with
  | Some t => String.eqb t token
  | None => false
  end.

Definition has_id (pid : string) (p : PdfNote) : bool := String.eqb (id p) pid.

(** [primaryKey()] on [id]. *)
Definition id_taken (l : list PdfNote) (pid : string) : bool :=
  existsb (has_id pid) l.

(** [unique()] on [share_token]: another row already holds the token. *)
Definition token_taken (l : list PdfNote) (pid : string)
    (token : option string) : bool :=
  match token with
  | Some t => existsb (λ p, negb (has_id pid p) && has_token p t) l
  | None => false
  end.

(** The row an insert stores: [id], [createdAt] and [updatedAt] from their
    defaults, [downloadCount] from [default(0)], [mimeType] and [isPublic]
    from their defaults unless the insert gives them. *)
Definition new_row (e : Env) (ins : InsertPdfNote) : PdfNote :=
  {| id := gen_random_uuid e;
     userId := ins_userId ins;
     title := ins_title ins;
     description := ins_description ins;
     s3Key := ins_s3Key ins;
     fileName := ins_fileName ins;
     fileSize := ins_fileSize ins;
     mimeType := default "application/pdf" (ins_mimeType ins);
     isPublic := default false (ins_isPublic ins);
     shareToken := ins_shareToken ins;
     downloadCount := 0;
     createdAt := db_now e;
     updatedAt := db_now e |}.

(** Modelled from the spec: what the share update writes, the two columns
    it is given and [updatedAt], which "advances on any mutation". *)
Definition set_share (public : bool) (token : string) (now : Z)
    (p : PdfNote) : PdfNote :=
  {| id := id p; userId := userId p; title := title p;
     description := description p; s3Key := s3Key p;
     fileName := fileName p; fileSize := fileSize p;
     mimeType := mimeType p;
     isPublic := public;
     shareToken := Some token;
     downloadCount := downloadCount p;
     createdAt := createdAt p;
     updatedAt := now |}.

(** Modelled from the spec: what the increment writes, [downloadCount]
    plus one and [updatedAt]. *)
Definition count_download (now : Z) (p : PdfNote) : PdfNote :=
  {| id := id p; userId := userId p; title := title p;
     description := description p; s3Key := s3Key p;
     fileName := fileName p; fileSize := fileSize p;
     mimeType := mimeType p;
     isPublic := isPublic p;
     shareToken := shareToken p;
     downloadCount := downloadCount p + 1;
     createdAt := createdAt p;
     updatedAt := now |}.

(** [UPDATE pdf_notes SET ... WHERE id = pid] *)
Definition update_where (pid : string) (f : PdfNote → PdfNote)
    (l : list PdfNote) : list PdfNote :=
  map (λ p, if has_id pid p then f p else p) l.

(** [DELETE FROM pdf_notes WHERE id = pid] *)
Definition delete_where (pid : string) (l : list PdfNote) : list PdfNote :=
  List.filter (λ p, negb (has_id pid p)) l.

(** ** The metadata store

    [server/storage.ts] is not among the sources; its methods follow the
    specification of the Metadata Repository and the constraints that the
    schema declares on [pdf_notes]. *)

(** Modelled from the spec: [storage.getPdfNoteById], the read of the
    "standard create/read/update/delete over Document Descriptors keyed by
    id"; absent for an unknown id. *)
Definition getPdfNoteById (pid : string) : Action (option PdfNote) :=
  l <- rows ;; ret (find (has_id pid) l).

(** Modelled from the spec: [storage.getPdfNoteByShareToken], which is
    [findByShareToken(token) -> Descriptor | absent]: it "must return absent
    (not an error) for unknown tokens and, critically, for tokens whose
    owning descriptor's visibility is currently Private". *)
Definition getPdfNoteByShareToken (token : string)
    : Action (option PdfNote) :=
  l <- rows ;; ret (find (λ p, has_token p token && isPublic p) l).

(** Modelled from the spec: [storage.createPdfNote], the create of the
    repository; the insert is refused (the promise rejects) when the primary
    key or the unique share token is already in the table. *)
Definition createPdfNote (ins : InsertPdfNote) : Action PdfNote :=
  e <- ask ;;
  l <- rows ;;
  let p := new_row e ins in
  if id_taken l (id p) || token_taken l (id p) (shareToken p) then throw
  else
    set_rows (l ++ [p]) ;;;
    emit (DbInsert (id p)) ;;;
    ret p.

(** Modelled from the spec: [storage.updatePdfNote(id, { isPublic,
    shareToken })], the update of the repository: one statement that sets
    both columns ("as part of the same transaction that flips visibility")
    and advances [updatedAt]; refused when another row holds the token. *)
Definition updatePdfNote (pid : string) (public : bool) (token : string)
    : Action unit :=
  e <- ask ;;
  l <- rows ;;
  if id_taken l pid && token_taken l pid (Some token) then throw
  else
    set_rows (update_where pid (set_share public token (db_now e)) l) ;;;
    emit (DbUpdate pid public token).

(** Modelled from the spec: [incrementDownloadCount(id) -> ()], "an atomic
    counter update at the storage layer": one statement, plus one. *)
Definition incrementDownloadCount (pid : string) : Action unit :=
  e <- ask ;;
  l <- rows ;;
  set_rows (update_where pid (count_download (db_now e)) l) ;;;
  emit (DbIncrement pid).

(** Modelled from the spec: [storage.deletePdfNote], the delete of the
    repository, which like its other calls may fail ("timeout surfaces as a
    retryable GatewayUnavailable / RepositoryUnavailable condition"): the
    promise then rejects and no row is removed.  This is the one repository
    call that a route makes after an effect it cannot take back. *)
Definition deletePdfNote (pid : string) : Action unit :=
  e <- ask ;;
  l <- rows ;;
  if db_delete e then
    set_rows (delete_where pid l) ;;;
    emit (DbDelete pid)
  else throw.

(** ** [server/s3.ts] *)

(** [await getSignedUrl(s3Client, command, { expiresIn })] *)
Definition signed_url (command : S3Command) (expiresIn : Z)
    : Action string :=
  e <- ask ;;
  match getSignedUrl e command expiresIn with
  | Some url => emit (Signed command) ;;; ret url
  | None => throw
  end.

Definition upload_key (owner : string) (now : N) (name : string) : string :=
  "pdfs/" +:+ owner +:+ "/" +:+ decimal now +:+ "-" +:+ name.

Definition generateUploadUrl (owner name : string)
    : Action (string * string) :=
  e <- ask ;;
  let key := upload_key owner (date_now e) name in
  let command := PutObjectCommand (BUCKET_NAME e) key "application/pdf" in
  url <- signed_url command 300 ;;
  ret (url, key).

Definition generateDownloadUrl (key : string) : Action string :=
  e <- ask ;;
  let command := GetObjectCommand (BUCKET_NAME e) key in
  url <- signed_url command 300 ;;
  ret url.

Definition deleteFile (key : string) : Action unit :=
  e <- ask ;;
  let command := DeleteObjectCommand (BUCKET_NAME e) key in
  if s3_send e command then
    o <- objects ;;
    set_objects (o ∖ {[key]}) ;;;
    emit (S3Deleted key)
  else throw.

(** ** [insertPdfNoteSchema]

    [createInsertSchema(pdfNotes).omit({ id, createdAt, updatedAt,
    downloadCount })]: an object schema that drops the keys it does not
    know, requires the [notNull] columns without default, and accepts the
    others when present.  It takes its bounds from the columns: a
    [varchar] with a [length] is a string of at most that many characters,
    an [integer] is a whole number of 32 bits. *)

Definition z_string (v : option JValue) : option string :=
  match v with
  | Some (JStr s) => Some s
  | _ => None
  end.

(** [varchar(.., { length })]: [z.string().max(length)] *)
Definition z_varchar (length : nat) (v : option JValue) : option string :=
  match v with
  | Some (JStr s) => if Nat.leb (String.length s) length then Some s else None
  | _ => None
  end.

Definition z_varchar_optional (length : nat) (v : option JValue)
    : option (option string) :=
  match v with
  | None => Some None
  | Some (JStr s) =>
      if Nat.leb (String.length s) length then Some (Some s) else None
  | _ => None
  end.

(** [integer(..)]: [z.number().int()] between -2^31 and 2^31 - 1 *)
Definition z_integer (v : option JValue) : option Z :=
  match v with
  | Some (JNum n) =>
      if (-2147483648 <=? n)%Z && (n <=? 2147483647)%Z then Some n else None
  | _ => None
  end.

Definition z_string_nullable_optional (v : option JValue)
    : option (option string) :=
  match v with
  | None | Some JNull => Some None
  | Some (JStr s) => Some (Some s)
  | _ => None
  end.

Definition z_boolean_optional (v : option JValue) : option (option bool) :=
  match v with
  | None => Some None
  | Some (JBool b) => Some (Some b)
  | _ => None
  end.

(** [insertPdfNoteSchema.parse(o)]; [None] when it throws a [ZodError]. *)
Definition insertPdfNoteSchema_parse (o : gmap string JValue)
    : option InsertPdfNote :=
  owner ← z_string (o !! "userId");
  title ← z_varchar 500 (o !! "title");
  description ← z_string_nullable_optional (o !! "description");
  s3Key ← z_varchar 1000 (o !! "s3Key");
  fileName ← z_varchar 500 (o !! "fileName");
  fileSize ← z_integer (o !! "fileSize");
  mimeType ← z_varchar_optional 100 (o !! "mimeType");
  isPublic ← z_boolean_optional (o !! "isPublic");
  shareToken ← z_string_nullable_optional (o !! "shareToken");
  Some {| ins_userId := owner; ins_title := title;
          ins_description := description; ins_s3Key := s3Key;
          ins_fileName := fileName; ins_fileSize := fileSize;
          ins_mimeType := mimeType; ins_isPublic := isPublic;
          ins_shareToken := shareToken |}.

(** ** The routes of [server/routes.ts] *)

Definition Unauthorized : Response := json 401 (BMessage "Unauthorized").
Definition Forbidden : Response := json 403 (BMessage "Forbidden").
Definition NotFound : Response := json 404 (BMessage "PDF not found").
Definition NotFoundOrNotPublic : Response :=
  json 404 (BMessage "PDF not found or not public").

(** [app.get("/api/pdfs/shared/:token")] *)
Definition get_pdfs_shared (token : string) : Env → World → Response * World :=
  try_catch "Failed to fetch shared PDF" (
    pdf <- getPdfNoteByShareToken token ;;
    match pdf with
    | None => reply NotFoundOrNotPublic
    | Some pdf => ret (json 200 (BPdf pdf))
    end).

(** [app.post("/api/pdfs/presign-upload")] *)
Definition post_pdfs_presign_upload (session : option string)
    (name : option string) : Env → World → Response * World :=
  try_catch "Failed to generate upload URL" (
    caller <- require session Unauthorized ;;
    name <- require name (json 400 (BMessage "File name is required")) ;;
    r <- generateUploadUrl caller name ;;
    ret (json 200 (BUpload r.1 r.2))).

(** [app.post("/api/pdfs")] *)
Definition post_pdfs (session : option string) (req_body : gmap string JValue)
    : Env → World → Response * World :=
  try_catch "Failed to create PDF" (
    caller <- require session Unauthorized ;;
    match insertPdfNoteSchema_parse (<["userId" := JStr caller]> req_body) with
    | None => throw
    | Some pdfData =>
        pdf <- createPdfNote pdfData ;;
        ret (json 200 (BPdf pdf))
    end).

(** [app.post("/api/pdfs/:id/share")] *)
Definition post_pdfs_share (session : option string) (pid : string)
    (public : bool) : Env → World → Response * World :=
  try_catch "Failed to share PDF" (
    caller <- require session Unauthorized ;;
    pdf <- getPdfNoteById pid ;;
    match pdf with
    | None => reply NotFound
    | Some pdf =>
        return_if (negb (String.eqb (userId pdf) caller)) Forbidden ;;;
        e <- ask ;;
        let token := or_else (shareToken pdf) (randomUUID (uuid_bits e)) in
        updatePdfNote pid public token ;;;
        let shareUrl :=
          if public then Some (req_origin e +:+ "/shared/" +:+ token)
          else None in
        ret (json 200 (BShare shareUrl token))
    end).

(** [app.get("/api/pdfs/:id/download")] *)
Definition get_pdfs_download (session : option string) (pid : string)
    : Env → World → Response * World :=
  try_catch "Failed to generate download URL" (
    pdf <- getPdfNoteById pid ;;
    match pdf with
    | None => reply NotFound
    | Some pdf =>
        return_if (negb (same_user (userId pdf) session) && negb (isPublic pdf))
          Forbidden ;;;
        downloadUrl <- generateDownloadUrl (s3Key pdf) ;;
        incrementDownloadCount pid ;;;
        ret (json 200 (BDownload downloadUrl))
    end).

(** [app.get("/api/pdfs/shared/:token/download")] *)
Definition get_pdfs_shared_download (token : string)
    : Env → World → Response * World :=
  try_catch "Failed to generate download URL" (
    pdf <- getPdfNoteByShareToken token ;;
    match pdf with
    | None => reply NotFoundOrNotPublic
    | Some pdf =>
        downloadUrl <- generateDownloadUrl (s3Key pdf) ;;
        incrementDownloadCount (id pdf) ;;;
        ret (json 200 (BDownload downloadUrl))
    end).

(** [app.delete("/api/pdfs/:id")] *)
Definition delete_pdfs (session : option string) (pid : string)
    : Env → World → Response * World :=
  try_catch "Failed to delete PDF" (
    caller <- require session Unauthorized ;;
    pdf <- getPdfNoteById pid ;;
    match pdf with
    | None => reply NotFound
    | Some pdf =>
        return_if (negb (String.eqb (userId pdf) caller)) Forbidden ;;;
        deleteFile (s3Key pdf) ;;;
        deletePdfNote pid ;;;
        ret (json 200 BSuccess)
    end).

(** ** Requests *)

Inductive Request :=
| GetShared (token : string)
| PresignUpload (session : option string) (name : option string)
| CreatePdf (session : option string) (req_body : gmap string JValue)
| SharePdf (session : option string) (pid : string) (public : bool)
| DownloadPdf (session : option string) (pid : string)
| DownloadShared (token : string)
| DeletePdf (session : option string) (pid : string).

Definition handle (r : Request) : Env → World → Response * World :=
  match r with
  | GetShared token => get_pdfs_shared token
  | PresignUpload session name => post_pdfs_presign_upload session name
  | CreatePdf session req_body => post_pdfs session req_body
  | SharePdf session pid public => post_pdfs_share session pid public
  | DownloadPdf session pid => get_pdfs_download session pid
  | DownloadShared token => get_pdfs_shared_download token
  | DeletePdf session pid => delete_pdfs session pid
  end.

(** The server handling requests one after the other, each in the
    environment it finds. *)
Fixpoint serve (rs : list (Env * Request)) (w : World) : World :=
  match rs with
  | [] => w
  | (e, r) :: rs => serve rs (handle r e w).2
  end.

(** The answers the server gives along the way. *)
Fixpoint answers (rs : list (Env * Request)) (w : World) : list Response :=
  match rs with
  | [] => []
  | (e, r) :: rs => (handle r e w).1 :: answers rs (handle r e w).2
  end.

(** ** A scenario: Alice's documents *)

Definition aws_up : Env :=
  {| BUCKET_NAME := "notes-bucket";
     date_now := 1730505600000;
     uuid_bits := 85070591730234615865843651857942052864;
     getSignedUrl := λ _ _, Some "https://notes-bucket.s3.amazonaws.com/signed";
     s3_send := λ _, true;
     gen_random_uuid := "pdf-2";
     db_now := 1730505600;
     db_delete := true;
     req_origin := "https://flow.example" |}.

Definition aws_down : Env :=
  {| BUCKET_NAME := "notes-bucket";
     date_now := 1730505600000;
     uuid_bits := 85070591730234615865843651857942052864;
     getSignedUrl := λ _ _, None;
     s3_send := λ _, false;
     gen_random_uuid := "pdf-2";
     db_now := 1730505600;
     db_delete := true;
     req_origin := "https://flow.example" |}.

Definition db_down : Env :=
  {| BUCKET_NAME := "notes-bucket";
     date_now := 1730505600000;
     uuid_bits := 85070591730234615865843651857942052864;
     getSignedUrl := λ _ _, Some "https://notes-bucket.s3.amazonaws.com/signed";
     s3_send := λ _, true;
     gen_random_uuid := "pdf-2";
     db_now := 1730505600;
     db_delete := false;
     req_origin := "https://flow.example" |}.

Definition next_day : Env :=
  {| BUCKET_NAME := "notes-bucket";
     date_now := 1730592000000;
     uuid_bits := 231584178474632390847141970017375815706;
     getSignedUrl := λ _ _, Some "https://notes-bucket.s3.amazonaws.com/signed";
     s3_send := λ _, true;
     gen_random_uuid := "pdf-3";
     db_now := 1730592000;
     db_delete := true;
     req_origin := "https://flow.example" |}.

Definition thesis (public : bool) (token : option string) : PdfNote :=
  {| id := "pdf-1"; userId := "alice"; title := "Thesis";
     description := None; s3Key := "pdfs/alice/1730505000000-thesis.pdf";
     fileName := "thesis.pdf"; fileSize := 52133;
     mimeType := "application/pdf"; isPublic := public;
     shareToken := token; downloadCount := 3;
     createdAt := 1730505000; updatedAt := 1730505000 |}.

Definition holding (l : list PdfNote) : World :=
  {| pdf_notes := l; s3_objects := list_to_set (s3Key <$> l); trace := [] |}.

Definition upload_fields : gmap string JValue :=
  list_to_map
    [("title", JStr "Slides"); ("description", JStr "");
     ("s3Key", JStr "pdfs/alice/1730505600000-slides.pdf");
     ("fileName", JStr "slides.pdf"); ("fileSize", JNum 1024);
     ("mimeType", JStr "application/pdf")].

(** The row that [POST /api/pdfs] stores for [upload_fields]. *)
Definition slides : PdfNote :=
  {| id := "pdf-2"; userId := "alice"; title := "Slides";
     description := Some ""; s3Key := "pdfs/alice/1730505600000-slides.pdf";
     fileName := "slides.pdf"; fileSize := 1024;
     mimeType := "application/pdf"; isPublic := false;
     shareToken := None; downloadCount := 0;
     createdAt := 1730505600; updatedAt := 1730505600 |}.

(** ** What a response shows *)

(** The [s3Key] field of the body that [res.json] sends, when it has one:
    a row is sent with all its columns. *)
Definition json_s3Key (b : Body) : option string :=
  match b with
  | BPdf p => Some (s3Key p)
  | BUpload _ key => Some key
  | _ => None
  end.

(** The [shareToken] field of the body, when it has one and it is not
    [null]. *)
Definition json_shareToken (b : Body) : option string :=
  match b with
  | BPdf p => shareToken p
  | BShare _ token => Some token
  | _ => None
  end.

(** The document a request is about: the one with the id or the token of
    its path, or the one it creates. *)
Definition names (r : Request) (e : Env) (p : PdfNote) : Prop :=
  match r with
  | GetShared token | DownloadShared token => shareToken p = Some token
  | SharePdf _ pid _ | DownloadPdf _ pid | DeletePdf _ pid => id p = pid
  | CreatePdf _ _ => id p = gen_random_uuid e
  | PresignUpload _ _ => False
  end.

Definition is_toggle (r : Request) : bool :=
  match r with
  | SharePdf _ _ _ => true
  | _ => false
  end.

(** ** The owner's view of a document *)

(** [app.get("/api/pdfs/:id")] *)
Definition get_pdfs_by_id (session : option string) (pid : string)
    : Env → World → Response * World :=
  try_catch "Failed to fetch PDF" (
    caller <- require session Unauthorized ;;
    pdf <- getPdfNoteById pid ;;
    match pdf with
    | None => reply NotFound
    | Some pdf =>
        return_if (negb (String.eqb (userId pdf) caller)) Forbidden ;;;
        ret (json 200 (BPdf pdf))
    end).

(** ** Invariants of the table *)

(** [primaryKey()]: no two rows with one id. *)
Definition ids_unique (l : list PdfNote) : Prop := NoDup (id <$> l).

(** [unique()]: a share token is held by the rows of one id only. *)
Definition tokens_unique (l : list PdfNote) : Prop :=
  ∀ p q t, p ∈ l → q ∈ l →
    shareToken p = Some t → shareToken q = Some t → id p = id q.

(** What may differ between two states of one document: its visibility,
    its token, its [updatedAt], and its counter if it has grown. *)
Definition evolves (p p' : PdfNote) : Prop :=
  id p' = id p ∧ userId p' = userId p ∧ title p' = title p
  ∧ description p' = description p ∧ s3Key p' = s3Key p
  ∧ fileName p' = fileName p ∧ fileSize p' = fileSize p
  ∧ mimeType p' = mimeType p ∧ createdAt p' = createdAt p
  ∧ (downloadCount p ≤ downloadCount p')%Z.

(** A request that does not delete document [pid]. *)
Definition spares (pid : string) (r : Request) : Prop :=
  match r with
  | DeletePdf _ pid' => pid' ≠ pid
  | _ => True
  end.

(** A path segment: a string without [/]. *)
Fixpoint no_slash (s : string) : bool :=
  match s with
  | EmptyString => true
  | String c s => negb (Ascii.eqb c "/") && no_slash s
  end.

(** ** The upload of the dashboard page

    The object that step 3 of [uploadMutation] posts to [/api/pdfs], with
    the key that step 1 got from [presign-upload]. *)
Definition upload_metadata (form_title : string)
    (form_description : option string) (key : string)
    (file_name file_type : string) (file_size : Z) : gmap string JValue :=
  list_to_map
    [("title", JStr form_title);
     ("description", JStr (or_else form_description ""));
     ("s3Key", JStr key);
     ("fileName", JStr file_name);
     ("fileSize", JNum file_size);
     ("mimeType", JStr (or_else (Some file_type) "application/pdf"))].

(** ** [formatFileSize] of the client pages

    [bytes] is the [fileSize] of a row, an integer; below 2^53 the
    divisions by 1024 and by 1024 * 1024 are exact, and [toFixed(1)] rounds
    the exact quotient to tenths, a tie going up. *)

(** [String(n)] for an integer. *)
Definition number_to_string (n : Z) : string :=
  if (n <? 0)%Z then "-" +:+ decimal (Z.to_N (- n)) else decimal (Z.to_N n).

(** The tenths in [(num / den).toFixed(1)], for [num >= 0]. *)
Definition tenths (num den : Z) : Z := ((20 * num + den) / (2 * den))%Z.

(** [(num / den).toFixed(1)], for [num >= 0]. *)
Definition toFixed_1 (num den : Z) : string :=
  let n := tenths num den in
  decimal (Z.to_N (n / 10)) +:+ "." +:+ decimal (Z.to_N (n mod 10)).

Definition formatFileSize (bytes : Z) : string :=
  if (bytes <? 1024)%Z then number_to_string bytes +:+ " B"
  else if (bytes <? 1024 * 1024)%Z then toFixed_1 bytes 1024 +:+ " KB"
  else toFixed_1 bytes (1024 * 1024) +:+ " MB".

(** * Properties *)

(** ** Strings and JavaScript values *)

Lemma truthy_Some (s : string) : truthy (Some s) = true ↔ s ≠ "".
Proof.
  unfold truthy. rewrite negb_true_iff. apply String.eqb_neq.
Qed.

Lemma same_user_true (owner : string) (session : option string) :
  same_user owner session = true ↔ session = Some owner.
Proof.
  destruct session as [s|]; simpl.
  - rewrite String.eqb_eq. split; congruence.
  - split; discriminate.
Qed.

Lemma require_truthy (s : string) (r : Response) (e : Env) (w : World) :
  s ≠ "" → require (Some s) r e w = (Return s, w).
Proof.
  intros Hs. unfold require.
  apply String.eqb_neq in Hs. rewrite Hs. reflexivity.
Qed.

Lemma randomUUID_length (bits : N) : String.length (randomUUID bits) = 36.
Proof. reflexivity. Qed.

Lemma randomUUID_truthy (bits : N) : randomUUID bits ≠ "".
Proof.
  intros H. pose proof (randomUUID_length bits) as L.
  rewrite H in L. discriminate L.
Qed.

(** [a || b] keeps a token that is there, and is never empty when [b] is a
    UUID. *)
Lemma or_else_keep (t b : string) : t ≠ "" → or_else (Some t) b = t.
Proof.
  intros Ht. unfold or_else. apply String.eqb_neq in Ht. now rewrite Ht.
Qed.

Lemma or_else_truthy (a : option string) (bits : N) :
  or_else a (randomUUID bits) ≠ "".
Proof.
  unfold or_else. destruct a as [s|]; [|apply randomUUID_truthy].
  destruct (String.eqb s "") eqn:E; [apply randomUUID_truthy|].
  now apply String.eqb_neq.
Qed.

(** ** The table *)

Lemma has_id_true (pid : string) (p : PdfNote) :
  has_id pid p = true ↔ id p = pid.
Proof. apply String.eqb_eq. Qed.

Lemma find_map_stable {A} (P : A → bool) (g : A → A) (l : list A) :
  (∀ x, P (g x) = P x) →
  find P (map g l) = g <$> find P l.
Proof.
  intros Hg. induction l as [|x l IH]; simpl; [reflexivity|].
  rewrite Hg. destruct (P x); [reflexivity|exact IH].
Qed.

Lemma set_share_id public token now p :
  id (set_share public token now p) = id p.
Proof. reflexivity. Qed.

Lemma count_download_id now p : id (count_download now p) = id p.
Proof. reflexivity. Qed.

(** [UPDATE ... WHERE id = pid] with new values that keep the [id], which
    is what both the share update and the increment are. *)
Section update_where.
Context (pid : string) (f : PdfNote → PdfNote).
Hypothesis f_id : ∀ p, id (f p) = id p.

Lemma find_update_where (j : string) (l : list PdfNote) :
  find (has_id j) (update_where pid f l)
  = (λ p, if has_id pid p then f p else p) <$> find (has_id j) l.
Proof.
  unfold update_where. apply find_map_stable.
  intros x. unfold has_id. destruct (String.eqb (id x) pid); [|reflexivity].
  now rewrite f_id.
Qed.

Lemma find_update_where_eq (l : list PdfNote) :
  find (has_id pid) (update_where pid f l) = f <$> find (has_id pid) l.
Proof.
  rewrite find_update_where.
  destruct (find (has_id pid) l) as [p|] eqn:E; [|reflexivity].
  apply find_some in E as [_ E]. simpl. now rewrite E.
Qed.

Lemma find_update_where_ne (j : string) (l : list PdfNote) :
  pid ≠ j →
  find (has_id j) (update_where pid f l) = find (has_id j) l.
Proof.
  intros Hne. rewrite find_update_where.
  destruct (find (has_id j) l) as [p|] eqn:E; [|reflexivity].
  apply find_some in E as [_ E]. apply has_id_true in E. simpl.
  destruct (has_id pid p) eqn:E'; [|reflexivity].
  apply has_id_true in E'. congruence.
Qed.

(** The unique constraint looks at the other rows only, and the update
    leaves those as they are. *)
Lemma token_taken_update_where (l : list PdfNote) (token : option string) :
  token_taken (update_where pid f l) pid token = token_taken l pid token.
Proof.
  destruct token as [t|]; [|reflexivity]. simpl.
  unfold update_where. induction l as [|x l IH]; simpl; [reflexivity|].
  rewrite IH. f_equal.
  destruct (has_id pid x) eqn:E; [|now rewrite E].
  unfold has_id in *. rewrite f_id, E. reflexivity.
Qed.

End update_where.

Lemma find_delete_where (pid : string) (l : list PdfNote) :
  find (has_id pid) (delete_where pid l) = None.
Proof.
  unfold delete_where. induction l as [|x l IH]; simpl; [reflexivity|].
  destruct (has_id pid x) eqn:E; simpl; [exact IH|].
  now rewrite E.
Qed.

Lemma find_delete_where_ne (pid j : string) (l : list PdfNote) :
  pid ≠ j →
  find (has_id j) (delete_where pid l) = find (has_id j) l.
Proof.
  intros Hne. unfold delete_where.
  induction l as [|x l IH]; simpl; [reflexivity|].
  destruct (has_id pid x) eqn:E; simpl.
  - destruct (has_id j x) eqn:E'; [|exact IH].
    apply has_id_true in E, E'. congruence.
  - destruct (has_id j x); [reflexivity|exact IH].
Qed.

Lemma id_taken_find (l : list PdfNote) (pid : string) :
  id_taken l pid = true ↔ is_Some (find (has_id pid) l).
Proof.
  unfold id_taken. induction l as [|x l IH]; simpl.
  - split; [discriminate|]. intros [? ?]; discriminate.
  - destruct (has_id pid x); simpl; [|exact IH].
    split; eauto.
Qed.

(** ** What each route does

    One equation per route: the answer and the world it leaves, by cases on
    what the store holds and on what the AWS calls give. *)

Lemma get_pdfs_shared_run (token : string) (e : Env) (w : World) :
  get_pdfs_shared token e w =
  match find (λ p, has_token p token && isPublic p) (pdf_notes w) with
  | None => (NotFoundOrNotPublic, w)
  | Some p => (json 200 (BPdf p), w)
  end.
Proof.
  unfold get_pdfs_shared, try_catch, getPdfNoteByShareToken, bind, rows, ret.
  destruct (find _ (pdf_notes w)); reflexivity.
Qed.

Lemma get_pdfs_shared_download_run (token : string) (e : Env) (w : World) :
  get_pdfs_shared_download token e w =
  match find (λ p, has_token p token && isPublic p) (pdf_notes w) with
  | None => (NotFoundOrNotPublic, w)
  | Some p =>
      let command := GetObjectCommand (BUCKET_NAME e) (s3Key p) in
      match getSignedUrl e command 300 with
      | None => (json 500 (BMessage "Failed to generate download URL"), w)
      | Some url =>
          (json 200 (BDownload url),
           {| pdf_notes :=
                update_where (id p) (count_download (db_now e)) (pdf_notes w);
              s3_objects := s3_objects w;
              trace := trace w ++ [Signed command; DbIncrement (id p)] |})
      end
  end.
Proof.
  unfold get_pdfs_shared_download, try_catch, getPdfNoteByShareToken,
    generateDownloadUrl, signed_url, incrementDownloadCount,
    bind, rows, set_rows, emit, ask, ret, throw.
  destruct (find _ (pdf_notes w)) as [p|]; [|reflexivity]. simpl.
  destruct (getSignedUrl e _ 300); simpl; [|reflexivity].
  now rewrite <- app_assoc.
Qed.

Lemma get_pdfs_download_run (session : option string) (pid : string)
    (e : Env) (w : World) :
  get_pdfs_download session pid e w =
  match find (has_id pid) (pdf_notes w) with
  | None => (NotFound, w)
  | Some p =>
      if negb (same_user (userId p) session) && negb (isPublic p)
      then (Forbidden, w)
      else
        let command := GetObjectCommand (BUCKET_NAME e) (s3Key p) in
        match getSignedUrl e command 300 with
        | None => (json 500 (BMessage "Failed to generate download URL"), w)
        | Some url =>
            (json 200 (BDownload url),
             {| pdf_notes :=
                  update_where pid (count_download (db_now e)) (pdf_notes w);
                s3_objects := s3_objects w;
                trace := trace w ++ [Signed command; DbIncrement pid] |})
        end
  end.
Proof.
  unfold get_pdfs_download, try_catch, getPdfNoteById, return_if,
    generateDownloadUrl, signed_url, incrementDownloadCount,
    bind, rows, set_rows, emit, ask, ret, reply, throw.
  destruct (find _ (pdf_notes w)) as [p|]; [|reflexivity]. simpl.
  destruct (negb _ && negb _); simpl; [reflexivity|].
  destruct (getSignedUrl e _ 300); simpl; [|reflexivity].
  now rewrite <- app_assoc.
Qed.

Lemma delete_pdfs_run (caller pid : string) (e : Env) (w : World) :
  caller ≠ "" →
  delete_pdfs (Some caller) pid e w =
  match find (has_id pid) (pdf_notes w) with
  | None => (NotFound, w)
  | Some p =>
      if negb (String.eqb (userId p) caller) then (Forbidden, w)
      else if s3_send e (DeleteObjectCommand (BUCKET_NAME e) (s3Key p)) then
        if db_delete e then
          (json 200 BSuccess,
           {| pdf_notes := delete_where pid (pdf_notes w);
              s3_objects := s3_objects w ∖ {[s3Key p]};
              trace := trace w ++ [S3Deleted (s3Key p); DbDelete pid] |})
        else
          (json 500 (BMessage "Failed to delete PDF"),
           {| pdf_notes := pdf_notes w;
              s3_objects := s3_objects w ∖ {[s3Key p]};
              trace := trace w ++ [S3Deleted (s3Key p)] |})
      else (json 500 (BMessage "Failed to delete PDF"), w)
  end.
Proof.
  intros Hc.
  unfold delete_pdfs, try_catch, bind at 1.
  rewrite (require_truthy _ _ _ _ Hc).
  unfold getPdfNoteById, return_if, deleteFile, deletePdfNote,
    bind, rows, objects, set_rows, set_objects, emit, ask, ret, reply, throw.
  destruct (find _ (pdf_notes w)) as [p|]; [|reflexivity]. simpl.
  destruct (negb _); simpl; [reflexivity|].
  destruct (s3_send e _); simpl; [|reflexivity].
  destruct (db_delete e); simpl; [|reflexivity].
  now rewrite <- app_assoc.
Qed.

Lemma unauthorized_delete (session : option string) (pid : string)
    (e : Env) (w : World) :
  truthy session = false → delete_pdfs session pid e w = (Unauthorized, w).
Proof.
  intros H. unfold delete_pdfs, try_catch, bind, require.
  destruct session as [s|]; [|reflexivity].
  simpl in H. apply negb_false_iff in H. now rewrite H.
Qed.

Lemma post_pdfs_share_run (caller pid : string) (public : bool)
    (e : Env) (w : World) :
  caller ≠ "" →
  post_pdfs_share (Some caller) pid public e w =
  match find (has_id pid) (pdf_notes w) with
  | None => (NotFound, w)
  | Some p =>
      if negb (String.eqb (userId p) caller) then (Forbidden, w)
      else
        let token := or_else (shareToken p) (randomUUID (uuid_bits e)) in
        if token_taken (pdf_notes w) pid (Some token)
        then (json 500 (BMessage "Failed to share PDF"), w)
        else
          (json 200
             (BShare (if public
                      then Some (req_origin e +:+ "/shared/" +:+ token)
                      else None) token),
           {| pdf_notes :=
                update_where pid (set_share public token (db_now e))
                  (pdf_notes w);
              s3_objects := s3_objects w;
              trace := trace w ++ [DbUpdate pid public token] |})
  end.
Proof.
  intros Hc.
  unfold post_pdfs_share, try_catch, bind at 1.
  rewrite (require_truthy _ _ _ _ Hc).
  unfold getPdfNoteById, return_if, updatePdfNote,
    bind, rows, set_rows, emit, ask, ret, reply, throw.
  destruct (find _ (pdf_notes w)) as [p|] eqn:Hp; [|reflexivity]. simpl.
  destruct (negb _); simpl; [reflexivity|].
  assert (id_taken (pdf_notes w) pid = true) as ->
    by (apply id_taken_find; eauto).
  simpl. destruct (existsb _ _); reflexivity.
Qed.

Lemma unauthorized_share (session : option string) (pid : string)
    (public : bool) (e : Env) (w : World) :
  truthy session = false →
  post_pdfs_share session pid public e w = (Unauthorized, w).
Proof.
  intros H. unfold post_pdfs_share, try_catch, bind, require.
  destruct session as [s|]; [|reflexivity].
  simpl in H. apply negb_false_iff in H. now rewrite H.
Qed.

Lemma post_pdfs_run (caller : string) (req_body : gmap string JValue)
    (e : Env) (w : World) :
  caller ≠ "" →
  post_pdfs (Some caller) req_body e w =
  match insertPdfNoteSchema_parse (<["userId" := JStr caller]> req_body) with
  | None => (json 500 (BMessage "Failed to create PDF"), w)
  | Some pdfData =>
      let p := new_row e pdfData in
      if id_taken (pdf_notes w) (id p)
         || token_taken (pdf_notes w) (id p) (shareToken p)
      then (json 500 (BMessage "Failed to create PDF"), w)
      else
        (json 200 (BPdf p),
         {| pdf_notes := pdf_notes w ++ [p];
            s3_objects := s3_objects w;
            trace := trace w ++ [DbInsert (id p)] |})
  end.
Proof.
  intros Hc.
  unfold post_pdfs, try_catch, bind at 1.
  rewrite (require_truthy _ _ _ _ Hc).
  destruct (insertPdfNoteSchema_parse _) as [ins|]; [|reflexivity].
  unfold createPdfNote, bind, rows, set_rows, emit, ask, ret, throw.
  simpl. destruct (_ || _); reflexivity.
Qed.

(** What the schema lets through: the session's user, whatever the body
    says; the body's [isPublic] and [shareToken]; nothing of its
    [downloadCount]. *)
Lemma insertPdfNoteSchema_parse_fields (caller : string)
    (req_body : gmap string JValue) (ins : InsertPdfNote) :
  insertPdfNoteSchema_parse (<["userId" := JStr caller]> req_body) = Some ins →
  ins_userId ins = caller
  ∧ z_boolean_optional (req_body !! "isPublic") = Some (ins_isPublic ins)
  ∧ z_string_nullable_optional (req_body !! "shareToken")
    = Some (ins_shareToken ins).
Proof.
  unfold insertPdfNoteSchema_parse.
  rewrite lookup_insert_eq.
  rewrite !lookup_insert_ne by discriminate.
  simpl.
  destruct (z_varchar 500 (req_body !! "title")); simpl; [|discriminate].
  destruct (z_string_nullable_optional (req_body !! "description"));
    simpl; [|discriminate].
  destruct (z_varchar 1000 (req_body !! "s3Key")); simpl; [|discriminate].
  destruct (z_varchar 500 (req_body !! "fileName")); simpl; [|discriminate].
  destruct (z_integer (req_body !! "fileSize")); simpl; [|discriminate].
  destruct (z_varchar_optional 100 (req_body !! "mimeType"));
    simpl; [|discriminate].
  destruct (z_boolean_optional (req_body !! "isPublic"));
    simpl; [|discriminate].
  destruct (z_string_nullable_optional (req_body !! "shareToken"));
    simpl; [|discriminate].
  intros [= <-]. simpl. auto.
Qed.

Lemma post_pdfs_presign_upload_run (caller name : string)
    (e : Env) (w : World) :
  caller ≠ "" → name ≠ "" →
  post_pdfs_presign_upload (Some caller) (Some name) e w =
  let key := upload_key caller (date_now e) name in
  let command := PutObjectCommand (BUCKET_NAME e) key "application/pdf" in
  match getSignedUrl e command 300 with
  | None => (json 500 (BMessage "Failed to generate upload URL"), w)
  | Some url =>
      (json 200 (BUpload url key),
       {| pdf_notes := pdf_notes w;
          s3_objects := s3_objects w;
          trace := trace w ++ [Signed command] |})
  end.
Proof.
  intros Hc Hn.
  unfold post_pdfs_presign_upload, try_catch, bind at 1.
  rewrite (require_truthy _ _ _ _ Hc).
  unfold bind at 1. rewrite (require_truthy _ _ _ _ Hn).
  unfold generateUploadUrl, signed_url, bind, emit, ask, ret, throw.
  simpl. destruct (getSignedUrl e _ 300); reflexivity.
Qed.

(** No route but [POST /api/pdfs] adds a row, and [presign-upload] does not
    touch the table at all. *)
Lemma post_pdfs_presign_upload_rows (session name : option string)
    (e : Env) (w : World) :
  pdf_notes (post_pdfs_presign_upload session name e w).2 = pdf_notes w.
Proof.
  unfold post_pdfs_presign_upload, try_catch, require, generateUploadUrl,
    signed_url, bind, emit, ask, ret, reply, throw.
  destruct session as [s|]; [|reflexivity].
  destruct (String.eqb s ""); [reflexivity|].
  destruct name as [n|]; [|reflexivity].
  destruct (String.eqb n ""); [reflexivity|].
  simpl. destruct (getSignedUrl e _ 300); reflexivity.
Qed.

Lemma find_none_iff {A} (P : A → bool) (l : list A) :
  find P l = None ↔ ∀ x, x ∈ l → P x = false.
Proof.
  split.
  - intros H x Hx. apply (find_none P l H). now apply list_elem_of_In.
  - induction l as [|x l IH]; intros H; simpl; [reflexivity|].
    rewrite (H x) by left.
    apply IH. intros y Hy. apply H. now right.
Qed.

Lemma has_token_true (p : PdfNote) (token : string) :
  has_token p token = true ↔ shareToken p = Some token.
Proof.
  unfold has_token. destruct (shareToken p) as [t|].
  - rewrite String.eqb_eq. split; congruence.
  - split; discriminate.
Qed.

(** The public lookup finds nothing for a token that no row holds, and
    nothing for a token whose rows are private. *)
Lemma public_lookup_absent (token : string) (l : list PdfNote) :
  (∀ p, p ∈ l → shareToken p = Some token → isPublic p = false) →
  find (λ p, has_token p token && isPublic p) l = None.
Proof.
  intros H. apply find_none_iff. intros p Hp.
  destruct (has_token p token) eqn:E; [|reflexivity].
  apply has_token_true in E. now rewrite (H p Hp E).
Qed.

Lemma public_lookup_found (token : string) (l : list PdfNote) (p : PdfNote) :
  find (λ p, has_token p token && isPublic p) l = Some p →
  p ∈ l ∧ shareToken p = Some token ∧ isPublic p = true.
Proof.
  intros H. apply find_some in H as [Hin H].
  apply andb_true_iff in H as [Ht Hp].
  split; [now apply list_elem_of_In|].
  split; [now apply has_token_true|exact Hp].
Qed.

(** ** The public path *)

(** C1: on the public path (metadata lookup and download by share token), a
    token that no document holds and a token whose document is private both
    get the same 404 answer, never 403, and leave the world as it was. *)
Theorem public_path_not_found (token : string) (e : Env) (w : World) :
  (∀ p, p ∈ pdf_notes w → shareToken p = Some token → isPublic p = false) →
  get_pdfs_shared_download token e w = (NotFoundOrNotPublic, w)
  ∧ get_pdfs_shared token e w = (NotFoundOrNotPublic, w)
  ∧ status (get_pdfs_shared_download token e w).1 = 404%Z
  ∧ status (get_pdfs_shared_download token e w).1 ≠ status Forbidden.
Proof.
  intros H. apply public_lookup_absent in H.
  rewrite get_pdfs_shared_download_run, get_pdfs_shared_run, H.
  repeat split. discriminate.
Qed.

Lemma public_path_not_found_witness :
  get_pdfs_shared_download "4f1c" aws_up
    (holding [thesis false (Some "4f1c")])
  = (NotFoundOrNotPublic, holding [thesis false (Some "4f1c")])
  ∧ get_pdfs_shared_download "4f1c" aws_up (holding [])
  = (NotFoundOrNotPublic, holding []).
Proof.
  split.
  - apply (public_path_not_found "4f1c" aws_up
             (holding [thesis false (Some "4f1c")])).
    intros p Hp _. simpl in Hp.
    apply list_elem_of_singleton in Hp. rewrite Hp. reflexivity.
  - apply (public_path_not_found "4f1c" aws_up (holding [])).
    intros p Hp. simpl in Hp. apply not_elem_of_nil in Hp. destruct Hp.
Defined.

(** ** Download by id *)

(** C3: [GET /api/pdfs/:id/download] answers 404 when no row has the id,
    403 when the row exists and the caller is neither its owner nor is it
    public, and otherwise goes on to the Gateway: the answer is the read
    handle the Gateway issues (status 500 when it issues none). *)
Theorem download_by_id_decision (session : option string) (pid : string)
    (e : Env) (w : World) :
  let r := (get_pdfs_download session pid e w).1 in
  (find (has_id pid) (pdf_notes w) = None →
     r = NotFound ∧ status r = 404%Z)
  ∧ (∀ p, find (has_id pid) (pdf_notes w) = Some p →
       (session = Some (userId p) ∨ isPublic p = true →
          match getSignedUrl e (GetObjectCommand (BUCKET_NAME e) (s3Key p))
                  300 with
          | Some url => r = json 200 (BDownload url)
          | None => status r = 500%Z
          end)
       ∧ (session ≠ Some (userId p) → isPublic p = false →
            r = Forbidden ∧ status r = 403%Z)).
Proof.
  intros r. subst r. rewrite get_pdfs_download_run. split.
  - intros ->. split; reflexivity.
  - intros p ->. split.
    + intros Hp.
      assert (negb (same_user (userId p) session) && negb (isPublic p)
              = false) as ->.
      { destruct Hp as [Ho|Hp].
        - apply same_user_true in Ho. now rewrite Ho.
        - rewrite Hp. apply andb_false_r. }
      simpl. destruct (getSignedUrl e _ 300); reflexivity.
    + intros Ho Hp. rewrite Hp.
      destruct (same_user (userId p) session) eqn:E.
      * apply same_user_true in E. contradiction.
      * split; reflexivity.
Qed.

Lemma download_by_id_decision_witness :
  (get_pdfs_download (Some "bob") "pdf-9" aws_up
     (holding [thesis false None])).1 = NotFound
  ∧ (get_pdfs_download (Some "alice") "pdf-1" aws_up
       (holding [thesis false None])).1
    = json 200 (BDownload "https://notes-bucket.s3.amazonaws.com/signed")
  ∧ (get_pdfs_download (Some "bob") "pdf-1" aws_up
       (holding [thesis false None])).1 = Forbidden.
Proof.
  split; [|split].
  - apply (download_by_id_decision (Some "bob") "pdf-9" aws_up
             (holding [thesis false None])).
    reflexivity.
  - apply (proj2 (download_by_id_decision (Some "alice") "pdf-1" aws_up
                    (holding [thesis false None]))
             (thesis false None)); [reflexivity|].
    left. reflexivity.
  - apply (proj2 (download_by_id_decision (Some "bob") "pdf-1" aws_up
                    (holding [thesis false None]))
             (thesis false None)); [reflexivity| |reflexivity].
    discriminate.
Defined.

(** C10: the download by id asks for no session.  Without one, a public
    document gets its read handle and its counter goes up by one, and a
    private document gets 403; in neither case is the answer 401. *)
Theorem download_by_id_without_session (pid : string) (e : Env) (w : World)
    (p : PdfNote) :
  find (has_id pid) (pdf_notes w) = Some p →
  let command := GetObjectCommand (BUCKET_NAME e) (s3Key p) in
  let r := (get_pdfs_download None pid e w).1 in
  let w' := (get_pdfs_download None pid e w).2 in
  status r ≠ status Unauthorized
  ∧ (isPublic p = true →
       ∀ url, getSignedUrl e command 300 = Some url →
         r = json 200 (BDownload url)
         ∧ trace w' = trace w ++ [Signed command; DbIncrement pid]
         ∧ downloadCount <$> find (has_id pid) (pdf_notes w')
           = Some (downloadCount p + 1)%Z)
  ∧ (isPublic p = false → r = Forbidden ∧ w' = w).
Proof.
  intros Hp command r w'. subst command r w'.
  rewrite get_pdfs_download_run, Hp. simpl.
  destruct (isPublic p) eqn:Hpub; simpl.
  - split; [|split; [|discriminate]].
    + destruct (getSignedUrl e _ 300); discriminate.
    + intros _ url ->. simpl. split; [reflexivity|]. split; [reflexivity|].
      rewrite find_update_where_eq by apply count_download_id.
      rewrite Hp. reflexivity.
  - split; [discriminate|]. split; [discriminate|]. intros _. now split.
Qed.

Lemma download_by_id_without_session_witness :
  (get_pdfs_download None "pdf-1" aws_up
     (holding [thesis true (Some "4f1c")])).1
  = json 200 (BDownload "https://notes-bucket.s3.amazonaws.com/signed")
  ∧ (get_pdfs_download None "pdf-1" aws_up
       (holding [thesis false None])).1 = Forbidden.
Proof.
  split.
  - apply (download_by_id_without_session "pdf-1" aws_up
             (holding [thesis true (Some "4f1c")])
             (thesis true (Some "4f1c"))); reflexivity.
  - apply (download_by_id_without_session "pdf-1" aws_up
             (holding [thesis false None]) (thesis false None));
      reflexivity.
Defined.

(** ** Counting downloads *)

Lemma public_lookup_counted (token : string) (now : Z) (l : list PdfNote)
    (p : PdfNote) :
  find (λ q, has_token q token && isPublic q) l = Some p →
  find (λ q, has_token q token && isPublic q)
    (update_where (id p) (count_download now) l)
  = Some (count_download now p).
Proof.
  intros Hp. unfold update_where. rewrite find_map_stable.
  - rewrite Hp. simpl. unfold has_id. now rewrite String.eqb_refl.
  - intros q. destruct (has_id (id p) q); reflexivity.
Qed.



(** ** Deleting *)

(** C5, as the code has it: when the owner deletes a document, the object
    is deleted from the bucket first and the row second, and the rows of
    other ids are never touched.  When the bucket refuses, the answer is
    500 and the world, with its row, is left as it was.  When the bucket
    accepts, the object is gone; the row is then gone too if the
    repository's delete goes through, and if that rejects the answer is 500
    and the row is still there, without its object. *)
Theorem delete_blob_then_descriptor (caller pid : string) (e : Env)
    (w : World) (p : PdfNote) :
  caller ≠ "" →
  find (has_id pid) (pdf_notes w) = Some p →
  userId p = caller →
  let r := (delete_pdfs (Some caller) pid e w).1 in
  let w' := (delete_pdfs (Some caller) pid e w).2 in
  (∀ other, other ≠ pid →
     find (has_id other) (pdf_notes w') = find (has_id other) (pdf_notes w))
  ∧ if s3_send e (DeleteObjectCommand (BUCKET_NAME e) (s3Key p)) then
      (s3Key p ∉ s3_objects w')
      ∧ if db_delete e then
          r = json 200 BSuccess
          ∧ trace w' = trace w ++ [S3Deleted (s3Key p); DbDelete pid]
          ∧ find (has_id pid) (pdf_notes w') = None
        else
          r = json 500 (BMessage "Failed to delete PDF")
          ∧ trace w' = trace w ++ [S3Deleted (s3Key p)]
          ∧ find (has_id pid) (pdf_notes w') = Some p
    else
      status r = 500%Z
      ∧ w' = w
      ∧ find (has_id pid) (pdf_notes w') = Some p.
Proof.
  intros Hc Hp Ho r w'. subst r w'.
  rewrite (delete_pdfs_run _ _ _ _ Hc), Hp, Ho, String.eqb_refl. simpl.
  assert (s3Key p ∉ s3_objects w ∖ {[s3Key p]}) as Hgone.
  { intros Hin. apply elem_of_difference in Hin as [_ Hin].
    apply Hin. now apply elem_of_singleton. }
  destruct (s3_send e _); simpl.
  - destruct (db_delete e); simpl.
    + split; [|split; [exact Hgone|]].
      * intros other Hne. now apply find_delete_where_ne.
      * split; [reflexivity|]. split; [reflexivity|apply find_delete_where].
    + split; [reflexivity|]. split; [exact Hgone|].
      split; [reflexivity|]. split; [reflexivity|exact Hp].
  - split; [reflexivity|]. split; [reflexivity|].
    split; [reflexivity|exact Hp].
Qed.

Lemma delete_blob_then_descriptor_witness :
  (delete_pdfs (Some "alice") "pdf-1" aws_up
     (holding [thesis false None])).1 = json 200 BSuccess
  ∧ find (has_id "pdf-1")
      (pdf_notes (delete_pdfs (Some "alice") "pdf-1" aws_up
                    (holding [thesis false None])).2) = None
  ∧ (delete_pdfs (Some "alice") "pdf-1" aws_down
       (holding [thesis false None])).2 = holding [thesis false None].
Proof.
  assert ("alice" ≠ "") as Hc by discriminate.
  pose proof (delete_blob_then_descriptor "alice" "pdf-1" aws_up
                (holding [thesis false None]) (thesis false None)
                Hc eq_refl eq_refl) as (_ & _ & Hr & _ & Hrow).
  pose proof (delete_blob_then_descriptor "alice" "pdf-1" aws_down
                (holding [thesis false None]) (thesis false None)
                Hc eq_refl eq_refl) as (_ & _ & Hw & _).
  split; [exact Hr|]. split; [exact Hrow|exact Hw].
Defined.

(** C5, as stated, fails: when the object has been deleted and the
    repository's delete then rejects, the answer is 500 and the row is
    left behind without its object. *)
Lemma delete_leaves_row_without_blob :
  let w := holding [thesis false None] in
  let r := (delete_pdfs (Some "alice") "pdf-1" db_down w).1 in
  let w' := (delete_pdfs (Some "alice") "pdf-1" db_down w).2 in
  s3Key (thesis false None) ∈ s3_objects w
  ∧ r = json 500 (BMessage "Failed to delete PDF")
  ∧ (s3Key (thesis false None) ∉ s3_objects w')
  ∧ find (has_id "pdf-1") (pdf_notes w') = Some (thesis false None).
Proof.
  split; [vm_compute; set_solver|]. split; [reflexivity|].
  split; [|reflexivity]. vm_compute. set_solver.
Qed.

(** ** Finalizing an upload *)

Lemma find_app_new (l : list PdfNote) (p : PdfNote) :
  id_taken l (id p) = false → find (has_id (id p)) (l ++ [p]) = Some p.
Proof.
  unfold id_taken. induction l as [|x l IH]; simpl.
  - intros _. unfold has_id. now rewrite String.eqb_refl.
  - intros H. apply orb_false_iff in H as [Hx Hl].
    rewrite Hx. now apply IH.
Qed.

(** C6, as the code has it: the descriptor that [POST /api/pdfs] creates
    belongs to the session's user and starts with [downloadCount] 0 whatever
    the body says, and it is stored; its visibility is the body's
    [isPublic] when the body has one, and private otherwise. *)
Theorem finalize_owner_and_counter (caller : string)
    (req_body : gmap string JValue) (e : Env) (w w' : World) (p : PdfNote) :
  caller ≠ "" →
  post_pdfs (Some caller) req_body e w = (json 200 (BPdf p), w') →
  userId p = caller
  ∧ downloadCount p = 0%Z
  ∧ isPublic p = match req_body !! "isPublic" with
                 | Some (JBool b) => b
                 | _ => false
                 end
  ∧ find (has_id (id p)) (pdf_notes w') = Some p.
Proof.
  intros Hc. rewrite (post_pdfs_run _ _ _ _ Hc).
  destruct (insertPdfNoteSchema_parse _) as [ins|] eqn:Hparse;
    [|discriminate].
  apply insertPdfNoteSchema_parse_fields in Hparse as (Hu & Hpub & _).
  simpl. destruct (id_taken _ _) eqn:Hid; simpl; [discriminate|].
  destruct (token_taken _ _ _); [discriminate|].
  intros [= <- <-]. simpl.
  split; [exact Hu|]. split; [reflexivity|]. split.
  - destruct (req_body !! "isPublic") as [[| | |]|];
      simpl in Hpub; try discriminate; now injection Hpub as <-.
  - now apply (find_app_new _ (new_row e ins)).
Qed.

Lemma finalize_owner_and_counter_witness :
  let req_body :=
    <["downloadCount" := JNum 99]>
      (<["userId" := JStr "mallory"]> upload_fields) in
  let w' := (post_pdfs (Some "alice") req_body aws_up
               (holding [thesis false None])).2 in
  userId slides = "alice"
  ∧ downloadCount slides = 0%Z
  ∧ isPublic slides = false
  ∧ find (has_id "pdf-2") (pdf_notes w') = Some slides.
Proof.
  intros req_body w'.
  assert ("alice" ≠ "") as Hc by discriminate.
  assert (post_pdfs (Some "alice") req_body aws_up
            (holding [thesis false None]) = (json 200 (BPdf slides), w'))
    as Hrun by (vm_compute; reflexivity).
  exact (finalize_owner_and_counter "alice" req_body aws_up
           (holding [thesis false None]) w' slides Hc Hrun).
Defined.

(** C6, as stated, fails: a body with [isPublic: true] creates a public
    descriptor. *)
Lemma finalize_public_payload :
  ∃ p w',
    post_pdfs (Some "alice") (<["isPublic" := JBool true]> upload_fields)
      aws_up (holding [])
    = (json 200 (BPdf p), w')
    ∧ userId p = "alice"
    ∧ isPublic p = true
    ∧ isPublic p ≠ false.
Proof.
  eexists _, _. split; [vm_compute; reflexivity|].
  split; [reflexivity|]. split; [reflexivity|discriminate].
Qed.

(** ** Share tokens *)

(** A toggle, whoever sends it and whatever document it names, leaves a
    non-empty token where it is. *)
Lemma share_keeps_token (session : option string) (pid0 : string)
    (public : bool) (e : Env) (w : World) (pid t : string) (p : PdfNote) :
  find (has_id pid) (pdf_notes w) = Some p →
  shareToken p = Some t → t ≠ "" →
  ∃ p', find (has_id pid)
          (pdf_notes (post_pdfs_share session pid0 public e w).2) = Some p'
        ∧ shareToken p' = Some t.
Proof.
  intros Hp Ht Hne.
  destruct (truthy session) eqn:Hs.
  2: { rewrite unauthorized_share by exact Hs. eauto. }
  destruct session as [caller|]; [|discriminate].
  apply truthy_Some in Hs. rewrite (post_pdfs_share_run _ _ _ _ _ Hs).
  destruct (find (has_id pid0) (pdf_notes w)) as [q|] eqn:Hq; [|eauto].
  destruct (negb _); [eauto|]. simpl.
  destruct (existsb _ _); [eauto|]. simpl.
  destruct (decide (pid0 = pid)) as [->|Hd].
  - rewrite find_update_where_eq by apply set_share_id.
    rewrite Hp in Hq. injection Hq as <-. rewrite Hp. simpl.
    eexists. split; [reflexivity|]. simpl.
    rewrite Ht, (or_else_keep _ _ Hne). reflexivity.
  - rewrite find_update_where_ne by (apply set_share_id || exact Hd).
    eauto.
Qed.

Lemma toggles_keep_token (rs : list (Env * Request)) (w : World)
    (pid t : string) (p : PdfNote) :
  Forall (λ er, is_toggle er.2 = true) rs →
  find (has_id pid) (pdf_notes w) = Some p →
  shareToken p = Some t → t ≠ "" →
  ∃ p', find (has_id pid) (pdf_notes (serve rs w)) = Some p'
        ∧ shareToken p' = Some t.
Proof.
  intros Hrs. revert w p.
  induction Hrs as [|[e r] rs Hr _ IH]; intros w p Hp Ht Hne; simpl.
  - eauto.
  - destruct r as [| | |session pid0 public| | |]; try discriminate Hr.
    simpl.
    destruct (share_keeps_token session pid0 public e w pid t p Hp Ht Hne)
      as (p' & Hp' & Ht').
    exact (IH _ p' Hp' Ht' Hne).
Qed.

(** C7, as the code has it: a non-empty share token that a document has is
    still its token after any sequence of toggles, by anyone, on any
    document, either way ([pdf.shareToken || randomUUID()] keeps it, and
    replaces an empty one); the token a toggle stores is never empty; and
    two calls with [isPublic: true] in a row by the owner both answer 200
    with the same token, provided no other row holds the token that the
    first call stores. *)
Theorem share_token_stable :
  (∀ (rs : list (Env * Request)) (w : World) (pid t : string) (p : PdfNote),
     Forall (λ er, is_toggle er.2 = true) rs →
     find (has_id pid) (pdf_notes w) = Some p →
     shareToken p = Some t → t ≠ "" →
     ∃ p', find (has_id pid) (pdf_notes (serve rs w)) = Some p'
           ∧ shareToken p' = Some t)
  ∧ (∀ (caller pid : string) (e e2 : Env) (w : World) (p : PdfNote),
       caller ≠ "" →
       find (has_id pid) (pdf_notes w) = Some p →
       userId p = caller →
       let token := or_else (shareToken p) (randomUUID (uuid_bits e)) in
       token_taken (pdf_notes w) pid (Some token) = false →
       let first := post_pdfs_share (Some caller) pid true e w in
       let second := post_pdfs_share (Some caller) pid true e2 first.2 in
       token ≠ ""
       ∧ first.1
         = json 200 (BShare (Some (req_origin e +:+ "/shared/" +:+ token))
                       token)
       ∧ shareToken <$> find (has_id pid) (pdf_notes first.2)
         = Some (Some token)
       ∧ second.1
         = json 200 (BShare (Some (req_origin e2 +:+ "/shared/" +:+ token))
                       token)
       ∧ shareToken <$> find (has_id pid) (pdf_notes second.2)
         = Some (Some token)).
Proof.
  split; [exact toggles_keep_token|].
  intros caller pid e e2 w p Hc Hp Ho token Hfree first second.
  assert (token ≠ "") as Hne by apply or_else_truthy.
  assert (first
    = (json 200
         (BShare (Some (req_origin e +:+ "/shared/" +:+ token)) token),
       {| pdf_notes :=
            update_where pid (set_share true token (db_now e)) (pdf_notes w);
          s3_objects := s3_objects w;
          trace := trace w ++ [DbUpdate pid true token] |})) as Hfirst.
  { subst first. rewrite (post_pdfs_share_run _ _ _ _ _ Hc), Hp, Ho.
    rewrite String.eqb_refl. cbv beta iota zeta. simpl negb. cbv iota.
    fold token. now rewrite Hfree. }
  assert (find (has_id pid) (pdf_notes first.2)
          = Some (set_share true token (db_now e) p)) as Hp1.
  { rewrite Hfirst. cbn [snd pdf_notes].
    rewrite find_update_where_eq by apply set_share_id. now rewrite Hp. }
  assert (token_taken (pdf_notes first.2) pid (Some token) = false) as Hfree1.
  { rewrite Hfirst. cbn [snd pdf_notes].
    now rewrite token_taken_update_where by apply set_share_id. }
  assert (second
    = (json 200
         (BShare (Some (req_origin e2 +:+ "/shared/" +:+ token)) token),
       {| pdf_notes :=
            update_where pid (set_share true token (db_now e2))
              (pdf_notes first.2);
          s3_objects := s3_objects first.2;
          trace := trace first.2 ++ [DbUpdate pid true token] |})) as Hsecond.
  { subst second. rewrite (post_pdfs_share_run _ _ _ _ _ Hc), Hp1.
    cbn [set_share userId shareToken]. rewrite Ho, String.eqb_refl.
    cbv beta iota zeta. simpl negb. cbv iota.
    rewrite (or_else_keep _ _ Hne). now rewrite Hfree1. }
  split; [exact Hne|]. split; [now rewrite Hfirst|].
  split; [now rewrite Hp1|]. split; [now rewrite Hsecond|].
  rewrite Hsecond. cbn [snd pdf_notes].
  rewrite find_update_where_eq by apply set_share_id. now rewrite Hp1.
Qed.

Lemma share_token_stable_witness :
  (∃ p', find (has_id "pdf-1")
           (pdf_notes
              (serve [(aws_up, SharePdf (Some "alice") "pdf-1" false);
                      (aws_down, SharePdf (Some "bob") "pdf-1" true);
                      (aws_up, SharePdf (Some "alice") "pdf-1" true)]
                 (holding [thesis true (Some "4f1c")]))) = Some p'
         ∧ shareToken p' = Some "4f1c")
  ∧ (post_pdfs_share (Some "alice") "pdf-1" true aws_down
       (post_pdfs_share (Some "alice") "pdf-1" true aws_up
          (holding [thesis false None])).2).1
    = json 200
        (BShare
           (Some "https://flow.example/shared/40000000-0000-4000-8000-000000000000")
           "40000000-0000-4000-8000-000000000000").
Proof.
  assert ("alice" ≠ "") as Hc by discriminate.
  assert ("4f1c" ≠ "") as Ht by discriminate.
  split.
  - apply (proj1 share_token_stable _ (holding [thesis true (Some "4f1c")])
             "pdf-1" "4f1c" (thesis true (Some "4f1c")));
      [|reflexivity|reflexivity|exact Ht].
    repeat constructor.
  - exact (proj1 (proj2 (proj2 (proj2
             (proj2 share_token_stable "alice" "pdf-1" aws_up aws_down
                (holding [thesis false None]) (thesis false None)
                Hc eq_refl eq_refl eq_refl))))).
Defined.

(** C7, as stated, fails: a document finalized with the empty string for
    [shareToken] has a token that is not null, and its first toggle
    replaces it. *)
Lemma empty_token_replaced :
  let created :=
    serve [(aws_up, CreatePdf (Some "alice")
                      (<["shareToken" := JStr ""]> upload_fields))]
      (holding []) in
  let toggled :=
    serve [(aws_up, SharePdf (Some "alice") "pdf-2" true)] created in
  shareToken <$> find (has_id "pdf-2") (pdf_notes created) = Some (Some "")
  ∧ shareToken <$> find (has_id "pdf-2") (pdf_notes toggled)
    = Some (Some "40000000-0000-4000-8000-000000000000")
  ∧ shareToken <$> find (has_id "pdf-2") (pdf_notes toggled)
    ≠ shareToken <$> find (has_id "pdf-2") (pdf_notes created).
Proof.
  split; [vm_compute; reflexivity|]. split; [vm_compute; reflexivity|].
  vm_compute. discriminate.
Qed.

(** A toggle either leaves a row as it was or leaves it with a token. *)
Lemma share_row_after (session : option string) (pid0 : string)
    (public : bool) (e : Env) (w : World) (pid : string) (p' : PdfNote) :
  find (has_id pid)
    (pdf_notes (post_pdfs_share session pid0 public e w).2) = Some p' →
  find (has_id pid) (pdf_notes w) = Some p'
  ∨ (isPublic p' = public ∧ ∃ t, shareToken p' = Some t ∧ t ≠ "").
Proof.
  destruct (truthy session) eqn:Hs.
  2: { rewrite unauthorized_share by exact Hs. now left. }
  destruct session as [caller|]; [|discriminate].
  apply truthy_Some in Hs. rewrite (post_pdfs_share_run _ _ _ _ _ Hs).
  destruct (find (has_id pid0) (pdf_notes w)) as [q|] eqn:Hq; [|now left].
  destruct (negb _); [now left|]. cbv zeta.
  destruct (token_taken _ _ _); [now left|]. cbn [snd pdf_notes].
  destruct (decide (pid0 = pid)) as [->|Hd].
  - rewrite find_update_where_eq by apply set_share_id.
    rewrite Hq. intros [= <-]. right. split; [reflexivity|].
    eexists. split; [reflexivity|]. apply or_else_truthy.
  - rewrite find_update_where_ne by (apply set_share_id || exact Hd).
    now left.
Qed.

(** Counting a download does not touch the share tokens. *)
Lemma count_keeps_tokens (pid0 pid : string) (now : Z) (l : list PdfNote) :
  shareToken <$> find (has_id pid) (update_where pid0 (count_download now) l)
  = shareToken <$> find (has_id pid) l.
Proof.
  rewrite find_update_where by apply count_download_id.
  destruct (find (has_id pid) l) as [p|]; [|reflexivity]. simpl.
  destruct (has_id pid0 p); reflexivity.
Qed.

(** C8, as the code has it: a descriptor created without a [shareToken] in
    the body has none, and downloads leave the tokens as they are; the
    first toggle the owner makes, whichever way, stores a fresh UUID, and
    later ones keep the stored token; the token and the visibility are
    written by one update; and no toggle leaves a row public without a
    token. *)
Theorem token_assigned_by_first_toggle :
  (∀ (caller : string) (req_body : gmap string JValue) (e : Env)
     (w w' : World) (p : PdfNote),
     caller ≠ "" →
     post_pdfs (Some caller) req_body e w = (json 200 (BPdf p), w') →
     req_body !! "shareToken" = None →
     shareToken p = None)
  ∧ (∀ (caller pid : string) (public : bool) (e : Env) (w : World)
       (p : PdfNote),
       caller ≠ "" →
       find (has_id pid) (pdf_notes w) = Some p →
       userId p = caller →
       let token := or_else (shareToken p) (randomUUID (uuid_bits e)) in
       token_taken (pdf_notes w) pid (Some token) = false →
       let w' := (post_pdfs_share (Some caller) pid public e w).2 in
       trace w' = trace w ++ [DbUpdate pid public token]
       ∧ find (has_id pid) (pdf_notes w')
         = Some (set_share public token (db_now e) p)
       ∧ isPublic (set_share public token (db_now e) p) = public
       ∧ shareToken (set_share public token (db_now e) p) = Some token
       ∧ token ≠ ""
       ∧ (truthy (shareToken p) = false →
            token = randomUUID (uuid_bits e)))
  ∧ (∀ (session : option string) (pid0 : string) (public : bool) (e : Env)
       (w : World),
       (∀ pid p, find (has_id pid) (pdf_notes w) = Some p →
                 isPublic p = true → shareToken p ≠ None) →
       ∀ pid p,
         find (has_id pid)
           (pdf_notes (post_pdfs_share session pid0 public e w).2) = Some p →
         isPublic p = true → shareToken p ≠ None)
  ∧ (∀ (session : option string) (pid0 token pid : string) (e : Env)
       (w : World),
       shareToken <$>
         find (has_id pid) (pdf_notes (get_pdfs_download session pid0 e w).2)
       = shareToken <$> find (has_id pid) (pdf_notes w)
       ∧ shareToken <$>
           find (has_id pid)
             (pdf_notes (get_pdfs_shared_download token e w).2)
         = shareToken <$> find (has_id pid) (pdf_notes w)).
Proof.
  split; [|split; [|split]].
  - intros caller req_body e w w' p Hc Hrun Hbody.
    rewrite (post_pdfs_run _ _ _ _ Hc) in Hrun.
    destruct (insertPdfNoteSchema_parse _) as [ins|] eqn:Hparse;
      [|discriminate].
    apply insertPdfNoteSchema_parse_fields in Hparse as (_ & _ & Htok).
    rewrite Hbody in Htok. injection Htok as Htok.
    cbv zeta in Hrun. destruct (_ || _); [discriminate|].
    injection Hrun as <- _. simpl. now rewrite <- Htok.
  - intros caller pid public e w p Hc Hp Ho token Hfree w'. subst w'.
    rewrite (post_pdfs_share_run _ _ _ _ _ Hc), Hp, Ho.
    rewrite String.eqb_refl. cbv beta iota zeta. simpl negb. cbv iota.
    fold token. rewrite Hfree. cbn [snd pdf_notes trace].
    split; [reflexivity|]. split.
    { rewrite find_update_where_eq by apply set_share_id. now rewrite Hp. }
    split; [reflexivity|]. split; [reflexivity|].
    split; [apply or_else_truthy|].
    subst token. unfold truthy, or_else.
    destruct (shareToken p) as [t|]; [|reflexivity].
    destruct (String.eqb t ""); [reflexivity|discriminate].
  - intros session pid0 public e w Hinv pid p Hp Hpub.
    apply share_row_after in Hp as [Hp|(_ & t & Ht & _)].
    + exact (Hinv pid p Hp Hpub).
    + rewrite Ht. discriminate.
  - intros session pid0 token pid e w. split.
    + rewrite get_pdfs_download_run.
      destruct (find (has_id pid0) (pdf_notes w)) as [q|]; [|reflexivity].
      destruct (_ && _); [reflexivity|]. cbv zeta.
      destruct (getSignedUrl e _ 300); [|reflexivity].
      apply count_keeps_tokens.
    + rewrite get_pdfs_shared_download_run.
      destruct (find _ (pdf_notes w)) as [q|]; [|reflexivity]. cbv zeta.
      destruct (getSignedUrl e _ 300); [|reflexivity].
      apply count_keeps_tokens.
Qed.

Lemma token_assigned_by_first_toggle_witness :
  shareToken slides = None
  ∧ find (has_id "pdf-2")
      (pdf_notes (post_pdfs_share (Some "alice") "pdf-2" true aws_up
                    (holding [slides])).2)
    = Some (set_share true "40000000-0000-4000-8000-000000000000"
              1730505600 slides)
  ∧ (∀ pid p,
       find (has_id pid)
         (pdf_notes (post_pdfs_share (Some "bob") "pdf-2" true aws_up
                       (holding [slides])).2) = Some p →
       isPublic p = true → shareToken p ≠ None).
Proof.
  assert ("alice" ≠ "") as Hc by discriminate.
  destruct token_assigned_by_first_toggle as (Hcreate & Htoggle & Hinv & _).
  split; [|split].
  - assert (post_pdfs (Some "alice") upload_fields aws_up (holding [])
            = (json 200 (BPdf slides),
               (post_pdfs (Some "alice") upload_fields aws_up
                  (holding [])).2)) as Hrun by (vm_compute; reflexivity).
    exact (Hcreate "alice" upload_fields aws_up (holding []) _ slides
             Hc Hrun eq_refl).
  - exact (proj1 (proj2 (Htoggle "alice" "pdf-2" true aws_up
                           (holding [slides]) slides
                           Hc eq_refl eq_refl eq_refl))).
  - apply (Hinv (Some "bob") "pdf-2" true aws_up (holding [slides])).
    intros pid p Hp Hpub. simpl in Hp.
    destruct (has_id pid slides); [|discriminate].
    injection Hp as <-. discriminate Hpub.
Defined.

(** C8, as stated, fails: a document that was created private and then
    toggled with [isPublic: false] only has a share token. *)
Lemma token_assigned_while_private :
  let created :=
    serve [(aws_up, CreatePdf (Some "alice") upload_fields)] (holding []) in
  let toggled :=
    serve [(aws_up, SharePdf (Some "alice") "pdf-2" false)] created in
  find (has_id "pdf-2") (pdf_notes created) = Some slides
  ∧ isPublic slides = false
  ∧ shareToken slides = None
  ∧ ∃ p, find (has_id "pdf-2") (pdf_notes toggled) = Some p
         ∧ isPublic p = false
         ∧ shareToken p = Some "40000000-0000-4000-8000-000000000000"
         ∧ shareToken p ≠ None.
Proof.
  split; [vm_compute; reflexivity|]. split; [reflexivity|].
  split; [reflexivity|].
  eexists. split; [vm_compute; reflexivity|].
  split; [reflexivity|]. split; [reflexivity|discriminate].
Qed.

(** ** Upload keys *)

Lemma append_inv_head (a x y : string) : a +:+ x = a +:+ y → x = y.
Proof.
  induction a as [|c a IH]; simpl; [trivial|].
  intros [= H]. exact (IH H).
Qed.

Lemma append_assoc (a b c : string) : (a +:+ b) +:+ c = a +:+ b +:+ c.
Proof.
  induction a as [|x a IH]; [reflexivity|].
  change (String x ((a +:+ b) +:+ c) = String x (a +:+ b +:+ c)).
  now f_equal.
Qed.

Lemma prefix_append (a x : string) : String.prefix a (a +:+ x) = true.
Proof.
  induction a as [|c a IH]; simpl; [now destruct x|].
  destruct (Ascii.ascii_dec c c); [exact IH|contradiction].
Qed.

(** A decimal number followed by a dash reads back in one way only: the
    digits stop at the first dash. *)
Lemma digits_dash_inj (d1 d2 : Decimal.uint) (n1 n2 : string) :
  NilEmpty.string_of_uint d1 +:+ "-" +:+ n1
  = NilEmpty.string_of_uint d2 +:+ "-" +:+ n2 →
  d1 = d2 ∧ n1 = n2.
Proof.
  revert d2.
  induction d1 as [|d1 IH|d1 IH|d1 IH|d1 IH|d1 IH|d1 IH|d1 IH|d1 IH|d1 IH
                   |d1 IH];
    intros [|d2|d2|d2|d2|d2|d2|d2|d2|d2|d2]; simpl; intros H;
    try discriminate H;
    try (injection H as H; destruct (IH _ H) as [-> ->]; now split).
  injection H as H. simpl in H. now split.
Qed.

Lemma decimal_dash_inj (t1 t2 : N) (n1 n2 : string) :
  decimal t1 +:+ "-" +:+ n1 = decimal t2 +:+ "-" +:+ n2 →
  t1 = t2 ∧ n1 = n2.
Proof.
  unfold decimal. intros H. apply digits_dash_inj in H as [Hd Hn].
  split; [|exact Hn].
  rewrite <- (DecimalN.Unsigned.of_to t1), <- (DecimalN.Unsigned.of_to t2).
  now rewrite Hd.
Qed.

(** C9, as the code has it: the key that [presign-upload] hands out is
    [pdfs/<caller>/<Date.now()>-<fileName>]; it lies under the caller's
    prefix; for one owner, two keys are equal only when both the
    millisecond and the file name are; and the call leaves [pdf_notes] as
    it was. *)
Theorem upload_key_scoped :
  (∀ (caller name : string) (e : Env) (w : World),
     caller ≠ "" → name ≠ "" →
     let key := upload_key caller (date_now e) name in
     let command := PutObjectCommand (BUCKET_NAME e) key "application/pdf" in
     String.prefix ("pdfs/" +:+ caller +:+ "/") key = true
     ∧ ∀ url, getSignedUrl e command 300 = Some url →
         (post_pdfs_presign_upload (Some caller) (Some name) e w).1
         = json 200 (BUpload url key))
  ∧ (∀ (owner : string) (t1 t2 : N) (n1 n2 : string),
       upload_key owner t1 n1 = upload_key owner t2 n2 →
       t1 = t2 ∧ n1 = n2)
  ∧ (∀ (session name : option string) (e : Env) (w : World),
       pdf_notes (post_pdfs_presign_upload session name e w).2
       = pdf_notes w).
Proof.
  split; [|split].
  - intros caller name e w Hc Hn key command. split.
    + subst key. unfold upload_key.
      rewrite <- (append_assoc caller "/").
      rewrite <- (append_assoc "pdfs/" (caller +:+ "/")).
      apply prefix_append.
    + intros url Hurl.
      rewrite (post_pdfs_presign_upload_run _ _ _ _ Hc Hn).
      cbv zeta. fold key. fold command. now rewrite Hurl.
  - intros owner t1 t2 n1 n2 H. unfold upload_key in H.
    apply (append_inv_head "pdfs/") in H.
    apply append_inv_head in H.
    apply (append_inv_head "/") in H.
    now apply decimal_dash_inj.
  - apply post_pdfs_presign_upload_rows.
Qed.

Lemma upload_key_scoped_witness :
  (post_pdfs_presign_upload (Some "alice") (Some "notes.pdf") aws_up
     (holding [])).1
  = json 200
      (BUpload "https://notes-bucket.s3.amazonaws.com/signed"
         "pdfs/alice/1730505600000-notes.pdf")
  ∧ (1730505600000 = 1730505600000 ∧ "notes.pdf" = "notes.pdf")%N.
Proof.
  assert ("alice" ≠ "") as Hc by discriminate.
  assert ("notes.pdf" ≠ "") as Hn by discriminate.
  split.
  - exact (proj2 (proj1 upload_key_scoped "alice" "notes.pdf" aws_up
                    (holding []) Hc Hn) _ eq_refl).
  - exact (proj1 (proj2 upload_key_scoped) "alice" 1730505600000%N
             1730505600000%N "notes.pdf" "notes.pdf" eq_refl).
Defined.

(** C9, as stated, fails: two calls by one owner for the same file name
    within one millisecond get the same key. *)
Lemma same_millisecond_same_key :
  let first :=
    post_pdfs_presign_upload (Some "alice") (Some "notes.pdf") aws_up
      (holding []) in
  let second :=
    post_pdfs_presign_upload (Some "alice") (Some "notes.pdf") aws_up
      first.2 in
  status first.1 = 200%Z
  ∧ status second.1 = 200%Z
  ∧ json_s3Key (body first.1) = Some "pdfs/alice/1730505600000-notes.pdf"
  ∧ json_s3Key (body second.1) = json_s3Key (body first.1).
Proof. vm_compute. repeat split. Qed.

(** ** What responses show *)

Lemma unauthorized_create (session : option string)
    (req_body : gmap string JValue) (e : Env) (w : World) :
  truthy session = false → post_pdfs session req_body e w = (Unauthorized, w).
Proof.
  intros H. unfold post_pdfs, try_catch, bind, require.
  destruct session as [s|]; [|reflexivity].
  simpl in H. apply negb_false_iff in H. now rewrite H.
Qed.

(** The answer is [{ message }]: it is not a 200, and it has neither an
    [s3Key] nor a [shareToken]. *)
Ltac message_only := cbn; split; [eauto|]; split; discriminate.

Lemma presign_body (session name : option string) (e : Env) (w : World) :
  let r := (post_pdfs_presign_upload session name e w).1 in
  (∃ m, r.(body) = BMessage m ∧ status r ≠ 200%Z)
  ∨ (∃ url key, r = json 200 (BUpload url key)).
Proof.
  unfold post_pdfs_presign_upload, try_catch, require, generateUploadUrl,
    signed_url, bind, emit, ask, ret, reply, throw.
  destruct session as [s|]; [|left; eexists; split; [reflexivity|easy]].
  destruct (String.eqb s ""); [left; eexists; split; [reflexivity|easy]|].
  destruct name as [n|]; [|left; eexists; split; [reflexivity|easy]].
  destruct (String.eqb n ""); [left; eexists; split; [reflexivity|easy]|].
  simpl. destruct (getSignedUrl e _ 300); simpl.
  - right. eauto.
  - left. eexists. split; [reflexivity|easy].
Qed.

(** C2, as the code has it, for the seven routes of [handle]: an answer
    other than 200 carries a [message] and nothing else; an answer has an
    [s3Key] field only when it is the 200 answer of the shared lookup, of
    [POST /api/pdfs] or of [presign-upload]; and a share token in an answer
    is the token of the document that the request names. *)
Theorem response_contents (r : Request) (e : Env) (w : World) :
  let res := (handle r e w).1 in
  let w' := (handle r e w).2 in
  (status res ≠ 200%Z → ∃ m, body res = BMessage m)
  ∧ (∀ key, json_s3Key (body res) = Some key →
       status res = 200%Z
       ∧ match r with
         | GetShared _ | CreatePdf _ _ | PresignUpload _ _ => True
         | _ => False
         end)
  ∧ (∀ t, json_shareToken (body res) = Some t →
       ∃ p, p ∈ pdf_notes w' ∧ names r e p ∧ shareToken p = Some t).
Proof.
  destruct r as [token|session name|session req_body|session pid public
                 |session pid|token|session pid]; cbn [handle].
  - rewrite get_pdfs_shared_run.
    destruct (find _ (pdf_notes w)) as [p|] eqn:Hp; cbn.
    + apply public_lookup_found in Hp as (Hin & Ht & _).
      split; [congruence|]. split; [auto|].
      intros t Hpt. exists p. split; [exact Hin|]. split; assumption.
    + split; [eauto|]. split; discriminate.
  - destruct (presign_body session name e w) as [(m & Hm & Hs)|(u & k & Hr)].
    + cbn zeta. rewrite Hm. split; [eauto|]. split; discriminate.
    + cbn zeta. rewrite Hr. cbn. split; [congruence|].
      split; [auto|discriminate].
  - destruct (truthy session) eqn:Hs.
    2: { rewrite unauthorized_create by exact Hs. message_only. }
    destruct session as [caller|]; [|discriminate].
    apply truthy_Some in Hs. rewrite (post_pdfs_run _ _ _ _ Hs).
    destruct (insertPdfNoteSchema_parse _) as [ins|]; cbn zeta.
    2: message_only.
    destruct (_ || _); cbn.
    + split; [eauto|]. split; discriminate.
    + split; [congruence|]. split; [auto|].
      intros t Ht. exists (new_row e ins).
      split; [|split; [reflexivity|exact Ht]].
      apply elem_of_app. right. now apply list_elem_of_singleton.
  - destruct (truthy session) eqn:Hs.
    2: { rewrite unauthorized_share by exact Hs. message_only. }
    destruct session as [caller|]; [|discriminate].
    apply truthy_Some in Hs. rewrite (post_pdfs_share_run _ _ _ _ _ Hs).
    destruct (find _ (pdf_notes w)) as [p|] eqn:Hp.
    2: message_only.
    destruct (negb _).
    { message_only. }
    cbv zeta. destruct (token_taken _ _ _).
    { message_only. }
    cbn [fst snd json body status json_s3Key json_shareToken pdf_notes].
    split; [congruence|]. split; [discriminate|].
    intros t [= <-].
    pose proof (find_update_where_eq pid
      (set_share public
         (or_else (shareToken p) (randomUUID (uuid_bits e))) (db_now e))
      (set_share_id _ _ _) (pdf_notes w)) as Hfind.
    rewrite Hp in Hfind. apply find_some in Hfind as [Hin Hid].
    eexists. split; [apply list_elem_of_In, Hin|].
    split; [now apply has_id_true in Hid|reflexivity].
  - rewrite get_pdfs_download_run.
    destruct (find _ (pdf_notes w)) as [p|].
    2: message_only.
    destruct (_ && _).
    { message_only. }
    cbv zeta. destruct (getSignedUrl e _ 300); cbn.
    + split; [congruence|]. split; discriminate.
    + split; [eauto|]. split; discriminate.
  - rewrite get_pdfs_shared_download_run.
    destruct (find _ (pdf_notes w)) as [p|].
    2: message_only.
    cbv zeta. destruct (getSignedUrl e _ 300); cbn.
    + split; [congruence|]. split; discriminate.
    + split; [eauto|]. split; discriminate.
  - destruct (truthy session) eqn:Hs.
    2: { rewrite unauthorized_delete by exact Hs. message_only. }
    destruct session as [caller|]; [|discriminate].
    apply truthy_Some in Hs. rewrite (delete_pdfs_run _ _ _ _ Hs).
    destruct (find _ (pdf_notes w)) as [p|].
    2: message_only.
    destruct (negb _).
    { message_only. }
    destruct (s3_send e _); [|message_only].
    destruct (db_delete e); [|message_only].
    cbn. split; [congruence|]. split; discriminate.
Qed.

Lemma response_contents_witness :
  (∃ m, body (handle (DownloadPdf (Some "bob") "pdf-1") aws_up
                (holding [thesis false None])).1 = BMessage m)
  ∧ status (handle (GetShared "4f1c") aws_up
              (holding [thesis true (Some "4f1c")])).1 = 200%Z
  ∧ (∃ p, p ∈ pdf_notes (handle (GetShared "4f1c") aws_up
                           (holding [thesis true (Some "4f1c")])).2
          ∧ names (GetShared "4f1c") aws_up p
          ∧ shareToken p = Some "4f1c").
Proof.
  split; [|split].
  - apply (proj1 (response_contents (DownloadPdf (Some "bob") "pdf-1") aws_up
                    (holding [thesis false None]))).
    vm_compute. discriminate.
  - apply (proj1 (proj2 (response_contents (GetShared "4f1c") aws_up
                           (holding [thesis true (Some "4f1c")])))
             "pdfs/alice/1730505000000-thesis.pdf").
    reflexivity.
  - apply (proj2 (proj2 (response_contents (GetShared "4f1c") aws_up
                           (holding [thesis true (Some "4f1c")])))
             "4f1c").
    reflexivity.
Defined.

(** C2, as stated, fails: the shared lookup sends the row, and with it the
    storage key, to whoever has the share token. *)
Lemma shared_lookup_shows_key :
  let res := (handle (GetShared "4f1c") aws_up
                (holding [thesis true (Some "4f1c")])).1 in
  status res = 200%Z
  ∧ body res = BPdf (thesis true (Some "4f1c"))
  ∧ json_s3Key (body res) = Some "pdfs/alice/1730505000000-thesis.pdf"
  ∧ json_s3Key (body res) ≠ None.
Proof.
  split; [reflexivity|]. split; [reflexivity|].
  split; [reflexivity|discriminate].
Qed.

(** ** The scenario of the specification

    Alice finalizes an upload, shares it, a visitor downloads it through the
    link, Alice makes it private again, the visitor is turned away, and
    Alice shares it again under the same link. *)
Example shared_link_scenario :
  let T := "40000000-0000-4000-8000-000000000000" in
  let link := Some ("https://flow.example/shared/" +:+ T) in
  let requests :=
    [(aws_up, CreatePdf (Some "alice") upload_fields);
     (aws_up, SharePdf (Some "alice") "pdf-2" true);
     (aws_up, DownloadShared T);
     (next_day, SharePdf (Some "alice") "pdf-2" false);
     (next_day, DownloadShared T);
     (next_day, SharePdf (Some "alice") "pdf-2" true)] in
  answers requests (holding [])
  = [json 200 (BPdf slides);
     json 200 (BShare link T);
     json 200 (BDownload "https://notes-bucket.s3.amazonaws.com/signed");
     json 200 (BShare None T);
     NotFoundOrNotPublic;
     json 200 (BShare link T)]
  ∧ (λ p, (isPublic p, shareToken p, downloadCount p)) <$>
      pdf_notes (serve requests (holding []))
    = [(true, Some T, 1%Z)].
Proof. split; vm_compute; reflexivity. Qed.

(** * Further properties of the routes *)

(** ** Who may do what *)

Lemma get_pdfs_by_id_run (caller pid : string) (e : Env) (w : World) :
  caller ≠ "" →
  get_pdfs_by_id (Some caller) pid e w =
  match find (has_id pid) (pdf_notes w) with
  | None => (NotFound, w)
  | Some p =>
      if negb (String.eqb (userId p) caller) then (Forbidden, w)
      else (json 200 (BPdf p), w)
  end.
Proof.
  intros Hc.
  unfold get_pdfs_by_id, try_catch, bind at 1.
  rewrite (require_truthy _ _ _ _ Hc).
  unfold getPdfNoteById, return_if, bind, rows, ret, reply.
  destruct (find _ (pdf_notes w)) as [p|]; [|reflexivity]. simpl.
  destruct (negb _); reflexivity.
Qed.

Lemma unauthorized_by_id (session : option string) (pid : string)
    (e : Env) (w : World) :
  truthy session = false → get_pdfs_by_id session pid e w = (Unauthorized, w).
Proof.
  intros H. unfold get_pdfs_by_id, try_catch, bind, require.
  destruct session as [s|]; [|reflexivity].
  simpl in H. apply negb_false_iff in H. now rewrite H.
Qed.

Lemma unauthorized_presign (session name : option string)
    (e : Env) (w : World) :
  truthy session = false →
  post_pdfs_presign_upload session name e w = (Unauthorized, w).
Proof.
  intros H. unfold post_pdfs_presign_upload, try_catch, bind, require.
  destruct session as [s|]; [|reflexivity].
  simpl in H. apply negb_false_iff in H. now rewrite H.
Qed.

(** X1: without a session, or with the empty string for one, the five
    routes that ask for a user answer 401 and do nothing else: no row is
    read or written, nothing is signed, nothing is deleted; and a missing
    file name does not change that answer. *)
Theorem no_session_no_effect (session : option string) (e : Env)
    (w : World) :
  truthy session = false →
  (∀ name, post_pdfs_presign_upload session name e w = (Unauthorized, w))
  ∧ (∀ req_body, post_pdfs session req_body e w = (Unauthorized, w))
  ∧ (∀ pid public, post_pdfs_share session pid public e w = (Unauthorized, w))
  ∧ (∀ pid, delete_pdfs session pid e w = (Unauthorized, w))
  ∧ (∀ pid, get_pdfs_by_id session pid e w = (Unauthorized, w)).
Proof.
  intros H. repeat split; intros.
  - now apply unauthorized_presign.
  - now apply unauthorized_create.
  - now apply unauthorized_share.
  - now apply unauthorized_delete.
  - now apply unauthorized_by_id.
Qed.

Lemma no_session_no_effect_witness :
  delete_pdfs (Some "") "pdf-1" aws_up (holding [thesis true (Some "4f1c")])
  = (Unauthorized, holding [thesis true (Some "4f1c")]).
Proof.
  apply (no_session_no_effect (Some "") aws_up
           (holding [thesis true (Some "4f1c")])).
  reflexivity.
Defined.

(** X2: a signed-in user who is not the owner cannot toggle, delete or read
    the row of a document: each of the three routes answers 403 and leaves
    the world as it was, also when the document is public, although the
    download by id would then serve it. *)
Theorem stranger_cannot_change (caller pid : string) (e : Env) (w : World)
    (p : PdfNote) :
  caller ≠ "" →
  find (has_id pid) (pdf_notes w) = Some p →
  userId p ≠ caller →
  (∀ public, post_pdfs_share (Some caller) pid public e w = (Forbidden, w))
  ∧ delete_pdfs (Some caller) pid e w = (Forbidden, w)
  ∧ get_pdfs_by_id (Some caller) pid e w = (Forbidden, w)
  ∧ (isPublic p = true →
       (get_pdfs_download (Some caller) pid e w).1 ≠ Forbidden).
Proof.
  intros Hc Hp Ho. apply String.eqb_neq in Ho.
  rewrite (delete_pdfs_run _ _ _ _ Hc), (get_pdfs_by_id_run _ _ _ _ Hc).
  rewrite Hp, Ho. simpl.
  split; [|split; [reflexivity|split; [reflexivity|]]].
  - intros public. rewrite (post_pdfs_share_run _ _ _ _ _ Hc), Hp, Ho.
    reflexivity.
  - intros Hpub. rewrite get_pdfs_download_run, Hp, Hpub.
    rewrite andb_false_r. cbv zeta.
    destruct (getSignedUrl e _ 300); discriminate.
Qed.

Lemma stranger_cannot_change_witness :
  delete_pdfs (Some "bob") "pdf-1" aws_up
    (holding [thesis true (Some "4f1c")])
  = (Forbidden, holding [thesis true (Some "4f1c")])
  ∧ get_pdfs_by_id (Some "bob") "pdf-1" aws_up
      (holding [thesis true (Some "4f1c")])
    = (Forbidden, holding [thesis true (Some "4f1c")]).
Proof.
  assert ("bob" ≠ "") as Hc by discriminate.
  assert (userId (thesis true (Some "4f1c")) ≠ "bob") as Ho by discriminate.
  pose proof (stranger_cannot_change "bob" "pdf-1" aws_up
                (holding [thesis true (Some "4f1c")])
                (thesis true (Some "4f1c")) Hc eq_refl Ho) as (_ & Hd & Hg & _).
  split; [exact Hd|exact Hg].
Defined.

(** X3: [GET /api/pdfs/:id] is the owner's view: the owner gets the row as
    it is stored, an unknown id gets 404, and no answer of this route
    changes the world. *)
Theorem owner_reads_row (caller pid : string) (e : Env) (w : World) :
  caller ≠ "" →
  (get_pdfs_by_id (Some caller) pid e w).2 = w
  ∧ (find (has_id pid) (pdf_notes w) = None →
       (get_pdfs_by_id (Some caller) pid e w).1 = NotFound)
  ∧ (∀ p, find (has_id pid) (pdf_notes w) = Some p →
       ((get_pdfs_by_id (Some caller) pid e w).1 = json 200 (BPdf p)
        ↔ userId p = caller)).
Proof.
  intros Hc. rewrite (get_pdfs_by_id_run _ _ _ _ Hc).
  destruct (find (has_id pid) (pdf_notes w)) as [p|].
  - destruct (String.eqb (userId p) caller) eqn:E; simpl.
    + apply String.eqb_eq in E.
      split; [reflexivity|]. split; [discriminate|].
      intros q [= <-]. split; auto.
    + apply String.eqb_neq in E.
      split; [reflexivity|]. split; [discriminate|].
      intros q [= <-]. split; [discriminate|contradiction].
  - split; [reflexivity|]. split; [reflexivity|discriminate].
Qed.

Lemma owner_reads_row_witness :
  (get_pdfs_by_id (Some "alice") "pdf-1" aws_up
     (holding [thesis false None])).1
  = json 200 (BPdf (thesis false None)).
Proof.
  assert ("alice" ≠ "") as Hc by discriminate.
  apply (proj2 (proj2 (owner_reads_row "alice" "pdf-1" aws_up
                         (holding [thesis false None]) Hc))
           (thesis false None) eq_refl).
  reflexivity.
Defined.

(** ** Composing the routes *)

(** X4: a delete that succeeded (the bucket and the repository both
    accepted it) is final for the routes that go by id: whoever asks
    afterwards, the download answers 404, and for a signed-in user so do
    the toggle, the owner's view and a second delete, none of them changing
    anything. *)
Theorem delete_is_final (caller pid : string) (e : Env) (w : World)
    (p : PdfNote) :
  caller ≠ "" →
  find (has_id pid) (pdf_notes w) = Some p →
  userId p = caller →
  s3_send e (DeleteObjectCommand (BUCKET_NAME e) (s3Key p)) = true →
  db_delete e = true →
  let w' := (delete_pdfs (Some caller) pid e w).2 in
  ∀ (e2 : Env) (session : option string) (user : string),
    user ≠ "" →
    get_pdfs_download session pid e2 w' = (NotFound, w')
    ∧ delete_pdfs (Some user) pid e2 w' = (NotFound, w')
    ∧ get_pdfs_by_id (Some user) pid e2 w' = (NotFound, w')
    ∧ ∀ public, post_pdfs_share (Some user) pid public e2 w' = (NotFound, w').
Proof.
  intros Hc Hp Ho Hs3 Hdb w' e2 session user Hu.
  assert (find (has_id pid) (pdf_notes w') = None) as Hgone.
  { subst w'. rewrite (delete_pdfs_run _ _ _ _ Hc), Hp, Ho.
    rewrite String.eqb_refl. simpl. rewrite Hs3, Hdb. simpl.
    apply find_delete_where. }
  rewrite get_pdfs_download_run, (delete_pdfs_run _ _ _ _ Hu),
    (get_pdfs_by_id_run _ _ _ _ Hu), Hgone.
  repeat split. intros public.
  now rewrite (post_pdfs_share_run _ _ _ _ _ Hu), Hgone.
Qed.

Lemma delete_is_final_witness :
  let w' := (delete_pdfs (Some "alice") "pdf-1" aws_up
               (holding [thesis false None])).2 in
  delete_pdfs (Some "alice") "pdf-1" next_day w' = (NotFound, w').
Proof.
  assert ("alice" ≠ "") as Hc by discriminate.
  exact (proj1 (proj2 (delete_is_final "alice" "pdf-1" aws_up
                         (holding [thesis false None]) (thesis false None)
                         Hc eq_refl eq_refl eq_refl eq_refl
                         next_day None "alice" Hc))).
Defined.

(** After the share update of row [pid], the public lookup of the token
    finds that row when it was made public, and nothing when it was made
    private. *)
Lemma public_lookup_after_share (pid t : string) (public : bool) (now : Z)
    (l : list PdfNote) (p : PdfNote) :
  token_taken l pid (Some t) = false →
  find (has_id pid) l = Some p →
  find (λ q, has_token q t && isPublic q)
    (update_where pid (set_share public t now) l)
  = if public then Some (set_share true t now p) else None.
Proof.
  unfold update_where. induction l as [|x l IH]; [discriminate|].
  cbn [token_taken existsb find map]. intros Htaken Hfind.
  apply orb_false_iff in Htaken as [Hx Hl].
  destruct (has_id pid x) eqn:Hid.
  - injection Hfind as <-.
    unfold has_token at 1. cbn [set_share shareToken isPublic].
    rewrite String.eqb_refl. destruct public; [reflexivity|].
    cbn [andb].
    clear IH Hx. induction l as [|y l IH]; [reflexivity|].
    cbn [existsb] in Hl. apply orb_false_iff in Hl as [Hy Hl].
    cbn [map find]. destruct (has_id pid y) eqn:Hy'.
    + unfold has_token at 1. cbn [set_share shareToken isPublic].
      rewrite String.eqb_refl. exact (IH Hl).
    + cbn [negb andb] in Hy. rewrite Hy. exact (IH Hl).
  - cbn [negb andb] in Hx. rewrite Hx. exact (IH Hl Hfind).
Qed.

(** X5: the link that a successful [isPublic: true] toggle returns works:
    the shared lookup of its token answers with that very document, now
    public, and the shared download gets its handle and counts once. *)
Theorem shared_link_works (caller pid : string) (e e2 : Env) (w : World)
    (p : PdfNote) :
  caller ≠ "" →
  find (has_id pid) (pdf_notes w) = Some p →
  userId p = caller →
  let token := or_else (shareToken p) (randomUUID (uuid_bits e)) in
  token_taken (pdf_notes w) pid (Some token) = false →
  let w1 := (post_pdfs_share (Some caller) pid true e w).2 in
  let shared := set_share true token (db_now e) p in
  get_pdfs_shared token e2 w1 = (json 200 (BPdf shared), w1)
  ∧ ∀ url,
      getSignedUrl e2 (GetObjectCommand (BUCKET_NAME e2) (s3Key p)) 300
      = Some url →
      (get_pdfs_shared_download token e2 w1).1 = json 200 (BDownload url)
      ∧ find (has_id pid) (pdf_notes (get_pdfs_shared_download token e2 w1).2)
        = Some (count_download (db_now e2) shared).
Proof.
  intros Hc Hp Ho token Hfree w1 shared.
  assert (pdf_notes w1
          = update_where pid (set_share true token (db_now e)) (pdf_notes w))
    as Hrows.
  { subst w1. rewrite (post_pdfs_share_run _ _ _ _ _ Hc), Hp, Ho.
    rewrite String.eqb_refl. cbv beta iota zeta. simpl negb. cbv iota.
    fold token. now rewrite Hfree. }
  assert (find (λ q, has_token q token && isPublic q) (pdf_notes w1)
          = Some shared) as Hfound.
  { rewrite Hrows. now apply (public_lookup_after_share pid token true). }
  split.
  - now rewrite get_pdfs_shared_run, Hfound.
  - intros url Hurl. rewrite get_pdfs_shared_download_run, Hfound.
    assert (id p = pid) as Hid
      by (apply find_some in Hp as [_ Hp]; now apply has_id_true).
    cbv zeta. change (s3Key shared) with (s3Key p).
    change (id shared) with (id p). rewrite Hurl, Hid.
    split; [reflexivity|]. cbn [snd pdf_notes].
    rewrite find_update_where_eq by apply count_download_id.
    rewrite Hrows, find_update_where_eq by apply set_share_id.
    now rewrite Hp.
Qed.

Lemma shared_link_works_witness :
  let w1 := (post_pdfs_share (Some "alice") "pdf-1" true aws_up
               (holding [thesis false None])).2 in
  get_pdfs_shared "40000000-0000-4000-8000-000000000000" next_day w1
  = (json 200
       (BPdf (set_share true "40000000-0000-4000-8000-000000000000"
                1730505600 (thesis false None))), w1).
Proof.
  assert ("alice" ≠ "") as Hc by discriminate.
  exact (proj1 (shared_link_works "alice" "pdf-1" aws_up next_day
                  (holding [thesis false None]) (thesis false None)
                  Hc eq_refl eq_refl eq_refl)).
Defined.

(** X6: after a successful [isPublic: false] toggle the link is dead: the
    token that the toggle answers with gets 404 from the shared lookup and
    from the shared download, and the counter stays. *)
Theorem unshared_link_dead (caller pid : string) (e e2 : Env) (w : World)
    (p : PdfNote) :
  caller ≠ "" →
  find (has_id pid) (pdf_notes w) = Some p →
  userId p = caller →
  let token := or_else (shareToken p) (randomUUID (uuid_bits e)) in
  token_taken (pdf_notes w) pid (Some token) = false →
  let w1 := (post_pdfs_share (Some caller) pid false e w).2 in
  (post_pdfs_share (Some caller) pid false e w).1
  = json 200 (BShare None token)
  ∧ get_pdfs_shared token e2 w1 = (NotFoundOrNotPublic, w1)
  ∧ get_pdfs_shared_download token e2 w1 = (NotFoundOrNotPublic, w1).
Proof.
  intros Hc Hp Ho token Hfree w1.
  assert (post_pdfs_share (Some caller) pid false e w
          = (json 200 (BShare None token),
             {| pdf_notes :=
                  update_where pid (set_share false token (db_now e))
                    (pdf_notes w);
                s3_objects := s3_objects w;
                trace := trace w ++ [DbUpdate pid false token] |})) as Hrun.
  { rewrite (post_pdfs_share_run _ _ _ _ _ Hc), Hp, Ho.
    rewrite String.eqb_refl. cbv beta iota zeta. simpl negb. cbv iota.
    fold token. now rewrite Hfree. }
  assert (find (λ q, has_token q token && isPublic q) (pdf_notes w1) = None)
    as Hnone.
  { subst w1. rewrite Hrun. cbn [snd pdf_notes].
    now apply (public_lookup_after_share pid token false _ _ p). }
  split; [now rewrite Hrun|].
  now rewrite get_pdfs_shared_run, get_pdfs_shared_download_run, Hnone.
Qed.

Lemma unshared_link_dead_witness :
  let w1 := (post_pdfs_share (Some "alice") "pdf-1" false aws_up
               (holding [thesis true (Some "4f1c")])).2 in
  get_pdfs_shared_download "4f1c" next_day w1 = (NotFoundOrNotPublic, w1).
Proof.
  assert ("alice" ≠ "") as Hc by discriminate.
  exact (proj2 (proj2 (unshared_link_dead "alice" "pdf-1" aws_up next_day
                         (holding [thesis true (Some "4f1c")])
                         (thesis true (Some "4f1c"))
                         Hc eq_refl eq_refl eq_refl))).
Defined.

(** ** What a document keeps *)

Lemma evolves_refl (p : PdfNote) : evolves p p.
Proof. unfold evolves. repeat split; reflexivity. Qed.

Lemma evolves_trans (p q r : PdfNote) : evolves p q → evolves q r → evolves p r.
Proof.
  unfold evolves. intros (?&?&?&?&?&?&?&?&?&?) (?&?&?&?&?&?&?&?&?&?).
  repeat split; try congruence. lia.
Qed.

Lemma evolves_set_share public token now p :
  evolves p (set_share public token now p).
Proof. unfold evolves. repeat split; reflexivity. Qed.

Lemma evolves_count_download now p : evolves p (count_download now p).
Proof. unfold evolves. simpl. repeat split; try reflexivity. lia. Qed.

Lemma find_app_old (l : list PdfNote) (p q : PdfNote) (pid : string) :
  find (has_id pid) l = Some q → find (has_id pid) (l ++ [p]) = Some q.
Proof.
  induction l as [|x l IH]; simpl; [discriminate|].
  destruct (has_id pid x); [trivial|exact IH].
Qed.

Lemma find_update_where_evolves (pid0 pid : string) (f : PdfNote → PdfNote)
    (l : list PdfNote) (p : PdfNote) :
  (∀ q, id (f q) = id q) → (∀ q, evolves q (f q)) →
  find (has_id pid) l = Some p →
  ∃ p', find (has_id pid) (update_where pid0 f l) = Some p' ∧ evolves p p'.
Proof.
  intros Hid Hev Hp. rewrite find_update_where by exact Hid.
  rewrite Hp. simpl. eexists. split; [reflexivity|].
  destruct (has_id pid0 p); [apply Hev|apply evolves_refl].
Qed.

(** One request, whatever it is, keeps a document that it does not
    delete. *)
Lemma handle_keeps_row (r : Request) (e : Env) (w : World) (pid : string)
    (p : PdfNote) :
  spares pid r →
  find (has_id pid) (pdf_notes w) = Some p →
  ∃ p', find (has_id pid) (pdf_notes (handle r e w).2) = Some p'
        ∧ evolves p p'.
Proof.
  intros Hr Hp.
  assert (∃ p', find (has_id pid) (pdf_notes w) = Some p' ∧ evolves p p')
    as Hsame by (exists p; split; [exact Hp|apply evolves_refl]).
  destruct r as [token|session name|session req_body|session pid0 public
                 |session pid0|token|session pid0]; cbn [handle].
  - rewrite get_pdfs_shared_run.
    destruct (find (λ q, has_token q token && isPublic q) (pdf_notes w));
      exact Hsame.
  - now rewrite post_pdfs_presign_upload_rows.
  - destruct (truthy session) eqn:Hs.
    2: { now rewrite unauthorized_create by exact Hs. }
    destruct session as [caller|]; [|discriminate].
    apply truthy_Some in Hs. rewrite (post_pdfs_run _ _ _ _ Hs).
    destruct (insertPdfNoteSchema_parse _) as [ins|]; [|exact Hsame].
    cbv zeta. destruct (_ || _); [exact Hsame|]. cbn [snd pdf_notes].
    exists p. split; [now apply find_app_old|apply evolves_refl].
  - destruct (truthy session) eqn:Hs.
    2: { now rewrite unauthorized_share by exact Hs. }
    destruct session as [caller|]; [|discriminate].
    apply truthy_Some in Hs. rewrite (post_pdfs_share_run _ _ _ _ _ Hs).
    destruct (find (has_id pid0) (pdf_notes w)) as [q|]; [|exact Hsame].
    destruct (negb _); [exact Hsame|]. cbv zeta.
    destruct (token_taken _ _ _); [exact Hsame|]. cbn [snd pdf_notes].
    apply find_update_where_evolves;
      [apply set_share_id|apply evolves_set_share|exact Hp].
  - rewrite get_pdfs_download_run.
    destruct (find (has_id pid0) (pdf_notes w)) as [q|]; [|exact Hsame].
    destruct (_ && _); [exact Hsame|]. cbv zeta.
    destruct (getSignedUrl e _ 300); [|exact Hsame]. cbn [snd pdf_notes].
    apply find_update_where_evolves;
      [apply count_download_id|apply evolves_count_download|exact Hp].
  - rewrite get_pdfs_shared_download_run.
    destruct (find (λ q, has_token q token && isPublic q) (pdf_notes w))
      as [q|]; [|exact Hsame].
    cbv zeta.
    destruct (getSignedUrl e _ 300); [|exact Hsame]. cbn [snd pdf_notes].
    apply find_update_where_evolves;
      [apply count_download_id|apply evolves_count_download|exact Hp].
  - destruct (truthy session) eqn:Hs.
    2: { now rewrite unauthorized_delete by exact Hs. }
    destruct session as [caller|]; [|discriminate].
    apply truthy_Some in Hs. rewrite (delete_pdfs_run _ _ _ _ Hs).
    destruct (find (has_id pid0) (pdf_notes w)) as [q|]; [|exact Hsame].
    destruct (negb _); [exact Hsame|].
    destruct (s3_send e _); [|exact Hsame].
    destruct (db_delete e); [|exact Hsame]. cbn [snd pdf_notes].
    cbn [spares] in Hr. rewrite find_delete_where_ne by exact Hr.
    exact Hsame.
Qed.

(** X7: through any sequence of requests that does not delete it, a
    document stays in the table with the owner, storage key, title,
    description, file name, size, type and creation time it had, and its
    download counter never goes down; only its visibility, token and
    [updatedAt] may differ. *)
Theorem document_evolves (rs : list (Env * Request)) (w : World)
    (pid : string) (p : PdfNote) :
  Forall (λ er, spares pid er.2) rs →
  find (has_id pid) (pdf_notes w) = Some p →
  ∃ p', find (has_id pid) (pdf_notes (serve rs w)) = Some p' ∧ evolves p p'.
Proof.
  intros Hrs. revert w p.
  induction Hrs as [|[e r] rs Hr _ IH]; intros w p Hp; cbn [serve].
  - exists p. split; [exact Hp|apply evolves_refl].
  - destruct (handle_keeps_row r e w pid p Hr Hp) as (q & Hq & Hpq).
    destruct (IH _ q Hq) as (p' & Hp' & Hqp').
    exists p'. split; [exact Hp'|]. exact (evolves_trans _ _ _ Hpq Hqp').
Qed.

Lemma document_evolves_witness :
  ∃ p', find (has_id "pdf-1")
          (pdf_notes
             (serve [(aws_up, SharePdf (Some "alice") "pdf-1" true);
                     (aws_up, DownloadPdf None "pdf-1");
                     (aws_up, DeletePdf (Some "alice") "pdf-2");
                     (next_day, CreatePdf (Some "bob") upload_fields)]
                (holding [thesis false None]))) = Some p'
        ∧ evolves (thesis false None) p'.
Proof.
  apply (document_evolves _ (holding [thesis false None]) "pdf-1"
           (thesis false None)); [|reflexivity].
  repeat constructor. simpl. discriminate.
Defined.



(** ** Uploads *)

(** X9: [presign-upload] never writes: the table and the bucket are as
    before whatever it answers.  It answers 400 for a missing or empty file
    name; and when it answers 200 it has signed exactly one command, a
    [PutObjectCommand] for the key under the caller's own prefix, with
    content type [application/pdf] and 300 seconds to live. *)
Theorem presign_upload_outcomes (session name : option string) (e : Env)
    (w : World) :
  let r := (post_pdfs_presign_upload session name e w).1 in
  let w' := (post_pdfs_presign_upload session name e w).2 in
  pdf_notes w' = pdf_notes w
  ∧ s3_objects w' = s3_objects w
  ∧ (truthy session = true → truthy name = false →
       r = json 400 (BMessage "File name is required") ∧ w' = w)
  ∧ (status r = 200%Z →
       ∃ caller n url,
         session = Some caller ∧ name = Some n ∧ caller ≠ "" ∧ n ≠ ""
         ∧ let key := upload_key caller (date_now e) n in
           let command :=
             PutObjectCommand (BUCKET_NAME e) key "application/pdf" in
           getSignedUrl e command 300 = Some url
           ∧ r = json 200 (BUpload url key)
           ∧ trace w' = trace w ++ [Signed command]).
Proof.
  unfold post_pdfs_presign_upload, try_catch, require, generateUploadUrl,
    signed_url, bind, emit, ask, ret, reply, throw.
  destruct session as [s|]; [|cbn; repeat split; discriminate].
  cbn [truthy].
  destruct (String.eqb s "") eqn:Hs; [cbn; repeat split; discriminate|].
  destruct name as [n|]; [|cbn; repeat split; discriminate].
  cbn [truthy].
  destruct (String.eqb n "") eqn:Hn; [cbn; repeat split; discriminate|].
  cbv zeta.
  destruct (getSignedUrl e _ 300) as [url|] eqn:Hurl; cbn -[upload_key].
  - repeat split; try discriminate. intros _.
    exists s, n, url. apply String.eqb_neq in Hs, Hn.
    repeat split; assumption.
  - repeat split; discriminate.
Qed.

Lemma presign_upload_outcomes_witness :
  post_pdfs_presign_upload (Some "alice") (Some "") aws_up (holding [])
  = (json 400 (BMessage "File name is required"), holding [])
  ∧ ∃ caller n url,
      Some "alice" = Some caller ∧ Some "a.pdf" = Some n
      ∧ caller ≠ "" ∧ n ≠ ""
      ∧ getSignedUrl aws_up
          (PutObjectCommand "notes-bucket"
             (upload_key caller 1730505600000 n) "application/pdf") 300
        = Some url
      ∧ (post_pdfs_presign_upload (Some "alice") (Some "a.pdf") aws_up
           (holding [])).1
        = json 200 (BUpload url (upload_key caller 1730505600000 n))
      ∧ trace (post_pdfs_presign_upload (Some "alice") (Some "a.pdf") aws_up
                 (holding [])).2
        = [] ++ [Signed (PutObjectCommand "notes-bucket"
                           (upload_key caller 1730505600000 n)
                           "application/pdf")].
Proof.
  split.
  - pose proof (proj1 (proj2 (proj2
      (presign_upload_outcomes (Some "alice") (Some "") aws_up (holding []))))
      eq_refl eq_refl) as [Hr Hw].
    apply injective_projections; [exact Hr|exact Hw].
  - exact (proj2 (proj2 (proj2
      (presign_upload_outcomes (Some "alice") (Some "a.pdf") aws_up
         (holding [])))) eq_refl).
Defined.

Lemma insertPdfNoteSchema_parse_all (o : gmap string JValue)
    (ins : InsertPdfNote) :
  insertPdfNoteSchema_parse o = Some ins ↔
  z_string (o !! "userId") = Some (ins_userId ins)
  ∧ z_varchar 500 (o !! "title") = Some (ins_title ins)
  ∧ z_string_nullable_optional (o !! "description")
    = Some (ins_description ins)
  ∧ z_varchar 1000 (o !! "s3Key") = Some (ins_s3Key ins)
  ∧ z_varchar 500 (o !! "fileName") = Some (ins_fileName ins)
  ∧ z_integer (o !! "fileSize") = Some (ins_fileSize ins)
  ∧ z_varchar_optional 100 (o !! "mimeType") = Some (ins_mimeType ins)
  ∧ z_boolean_optional (o !! "isPublic") = Some (ins_isPublic ins)
  ∧ z_string_nullable_optional (o !! "shareToken")
    = Some (ins_shareToken ins).
Proof.
  unfold insertPdfNoteSchema_parse. split.
  - destruct (z_string (o !! "userId")); simpl; [|discriminate].
    destruct (z_varchar 500 (o !! "title")); simpl; [|discriminate].
    destruct (z_string_nullable_optional (o !! "description"));
      simpl; [|discriminate].
    destruct (z_varchar 1000 (o !! "s3Key")); simpl; [|discriminate].
    destruct (z_varchar 500 (o !! "fileName")); simpl; [|discriminate].
    destruct (z_integer (o !! "fileSize")); simpl; [|discriminate].
    destruct (z_varchar_optional 100 (o !! "mimeType")); simpl; [|discriminate].
    destruct (z_boolean_optional (o !! "isPublic")); simpl; [|discriminate].
    destruct (z_string_nullable_optional (o !! "shareToken"));
      simpl; [|discriminate].
    intros [= <-]. simpl. repeat split.
  - intros (-> & -> & -> & -> & -> & -> & -> & -> & ->). simpl.
    now destruct ins.
Qed.

(** X10: a finalize body without a string [title], [s3Key] or [fileName],
    or without a number [fileSize], stores nothing: the answer is 500
    "Failed to create PDF" (the route has no 400 of its own) and the world
    is as before. *)
Theorem finalize_rejects_bad_payload (caller : string)
    (req_body : gmap string JValue) (e : Env) (w : World) :
  caller ≠ "" →
  (∀ s, req_body !! "title" ≠ Some (JStr s))
  ∨ (∀ s, req_body !! "s3Key" ≠ Some (JStr s))
  ∨ (∀ s, req_body !! "fileName" ≠ Some (JStr s))
  ∨ (∀ n, req_body !! "fileSize" ≠ Some (JNum n)) →
  post_pdfs (Some caller) req_body e w
  = (json 500 (BMessage "Failed to create PDF"), w).
Proof.
  intros Hc Hbad. rewrite (post_pdfs_run _ _ _ _ Hc).
  destruct (insertPdfNoteSchema_parse _) as [ins|] eqn:Hparse;
    [|reflexivity].
  exfalso. apply insertPdfNoteSchema_parse_all in Hparse
    as (_ & Ht & _ & Hk & Hf & Hn & _).
  rewrite lookup_insert_ne in Ht, Hk, Hf, Hn by discriminate.
  destruct Hbad as [H|[H|[H|H]]].
  - destruct (req_body !! "title") as [[| | |s]|]; try discriminate Ht.
    now apply (H s).
  - destruct (req_body !! "s3Key") as [[| | |s]|]; try discriminate Hk.
    now apply (H s).
  - destruct (req_body !! "fileName") as [[| | |s]|]; try discriminate Hf.
    now apply (H s).
  - destruct (req_body !! "fileSize") as [[| |n|]|]; try discriminate Hn.
    now apply (H n).
Qed.

Lemma finalize_rejects_bad_payload_witness :
  post_pdfs (Some "alice") (delete "s3Key" upload_fields) aws_up (holding [])
  = (json 500 (BMessage "Failed to create PDF"), holding []).
Proof.
  assert ("alice" ≠ "") as Hc by discriminate.
  apply (finalize_rejects_bad_payload "alice" _ aws_up (holding []) Hc).
  right. left. intros s. vm_compute. discriminate.
Defined.

(** The schema reads nine keys of the object it is given, and nothing
    else. *)
Lemma insertPdfNoteSchema_parse_ext (o o' : gmap string JValue) :
  (∀ k, k ∈ ["userId"; "title"; "description"; "s3Key"; "fileName";
             "fileSize"; "mimeType"; "isPublic"; "shareToken"] →
        o !! k = o' !! k) →
  insertPdfNoteSchema_parse o = insertPdfNoteSchema_parse o'.
Proof.
  intros H. unfold insertPdfNoteSchema_parse.
  rewrite !H by (repeat constructor). reflexivity.
Qed.

(** X11: the only keys of a finalize body that matter are [title],
    [description], [s3Key], [fileName], [fileSize], [mimeType], [isPublic]
    and [shareToken]: setting any other key, be it [id], [userId],
    [downloadCount], [createdAt] or [updatedAt], changes neither the answer
    nor the row that is stored. *)
Theorem finalize_ignores_other_keys (session : option string)
    (req_body : gmap string JValue) (k : string) (v : JValue)
    (e : Env) (w : World) :
  k ∉ ["title"; "description"; "s3Key"; "fileName"; "fileSize";
       "mimeType"; "isPublic"; "shareToken"] →
  post_pdfs session (<[k := v]> req_body) e w = post_pdfs session req_body e w.
Proof.
  intros Hk.
  destruct (truthy session) eqn:Hs.
  2: { now rewrite !unauthorized_create by exact Hs. }
  destruct session as [caller|]; [|discriminate].
  apply truthy_Some in Hs. rewrite !(post_pdfs_run _ _ _ _ Hs).
  replace (insertPdfNoteSchema_parse
             (<["userId" := JStr caller]> (<[k := v]> req_body)))
    with (insertPdfNoteSchema_parse (<["userId" := JStr caller]> req_body));
    [reflexivity|].
  apply insertPdfNoteSchema_parse_ext. intros key Hkey.
  destruct (decide (key = "userId")) as [->|Hu].
  - now rewrite !lookup_insert_eq.
  - rewrite !(lookup_insert_ne _ "userId") by congruence.
    rewrite lookup_insert_ne; [reflexivity|].
    intros ->. apply Hk.
    apply elem_of_cons in Hkey as [?|Hkey]; [congruence|exact Hkey].
Qed.

Lemma finalize_ignores_other_keys_witness :
  post_pdfs (Some "alice") (<["downloadCount" := JNum 99]> upload_fields)
    aws_up (holding [])
  = post_pdfs (Some "alice") upload_fields aws_up (holding []).
Proof.
  apply finalize_ignores_other_keys.
  intros H. repeat (apply elem_of_cons in H as [H|H]; [discriminate H|]).
  now apply not_elem_of_nil in H.
Defined.

(** X12: the [s3Key] of a finalize body is stored as it is, whatever
    prefix it lies under, and the row's owner may then delete it: the
    delete sends a [DeleteObjectCommand] for that key and the object is
    gone from the bucket, before the row is deleted (and also when the
    repository then rejects that delete, which answers 500). *)
Theorem finalize_then_delete (caller key : string)
    (req_body : gmap string JValue) (e e2 : Env) (w w1 : World)
    (p : PdfNote) :
  caller ≠ "" →
  req_body !! "s3Key" = Some (JStr key) →
  post_pdfs (Some caller) req_body e w = (json 200 (BPdf p), w1) →
  s3_send e2 (DeleteObjectCommand (BUCKET_NAME e2) key) = true →
  s3Key p = key
  ∧ (key ∉ s3_objects (delete_pdfs (Some caller) (id p) e2 w1).2)
  ∧ if db_delete e2 then
      (delete_pdfs (Some caller) (id p) e2 w1).1 = json 200 BSuccess
      ∧ trace (delete_pdfs (Some caller) (id p) e2 w1).2
        = trace w1 ++ [S3Deleted key; DbDelete (id p)]
    else
      (delete_pdfs (Some caller) (id p) e2 w1).1
      = json 500 (BMessage "Failed to delete PDF")
      ∧ trace (delete_pdfs (Some caller) (id p) e2 w1).2
        = trace w1 ++ [S3Deleted key].
Proof.
  intros Hc Hbody Hrun Hs3.
  rewrite (post_pdfs_run _ _ _ _ Hc) in Hrun.
  destruct (insertPdfNoteSchema_parse _) as [ins|] eqn:Hparse;
    [|discriminate].
  apply insertPdfNoteSchema_parse_all in Hparse
    as (Hu & _ & _ & Hk & _).
  rewrite lookup_insert_eq in Hu. injection Hu as Hu.
  rewrite lookup_insert_ne, Hbody in Hk by discriminate.
  cbn [z_varchar] in Hk.
  destruct (Nat.leb (String.length key) 1000); [|discriminate].
  injection Hk as Hk.
  cbv zeta in Hrun.
  destruct (id_taken _ _) eqn:Hid; [discriminate|].
  destruct (token_taken _ _ _); [discriminate|].
  injection Hrun as <- <-.
  assert (s3Key (new_row e ins) = key) as Hkey by (symmetry; exact Hk).
  split; [exact Hkey|].
  rewrite (delete_pdfs_run _ _ _ _ Hc). cbn [pdf_notes].
  rewrite (find_app_new _ _ Hid).
  cbn [new_row userId]. rewrite <- Hu, String.eqb_refl.
  change (s3Key (new_row e ins)) with (ins_s3Key ins) in Hkey.
  cbn [negb new_row s3Key]. rewrite Hkey, Hs3.
  assert (key ∉ s3_objects w ∖ {[key]}) as Hgone.
  { intros Hin. apply elem_of_difference in Hin as [_ Hin].
    apply Hin. now apply elem_of_singleton. }
  destruct (db_delete e2); cbn; (split; [exact Hgone|now split]).
Qed.

Lemma finalize_then_delete_witness :
  let body_of_bob :=
    <["s3Key" := JStr "pdfs/alice/1730505000000-thesis.pdf"]> upload_fields in
  let w1 := (post_pdfs (Some "bob") body_of_bob aws_up
               (holding [thesis false None])).2 in
  (delete_pdfs (Some "bob") "pdf-2" next_day w1).1 = json 200 BSuccess
  ∧ ("pdfs/alice/1730505000000-thesis.pdf"
     ∉ s3_objects (delete_pdfs (Some "bob") "pdf-2" next_day w1).2).
Proof.
  intros body_of_bob w1.
  assert ("bob" ≠ "") as Hc by discriminate.
  assert (post_pdfs (Some "bob") body_of_bob aws_up
            (holding [thesis false None])
          = (json 200
               (BPdf (new_row aws_up
                  {| ins_userId := "bob"; ins_title := "Slides";
                     ins_description := Some "";
                     ins_s3Key := "pdfs/alice/1730505000000-thesis.pdf";
                     ins_fileName := "slides.pdf"; ins_fileSize := 1024;
                     ins_mimeType := Some "application/pdf";
                     ins_isPublic := None; ins_shareToken := None |})), w1))
    as Hrun by (vm_compute; reflexivity).
  pose proof (finalize_then_delete "bob"
                "pdfs/alice/1730505000000-thesis.pdf" body_of_bob
                aws_up next_day (holding [thesis false None]) w1 _
                Hc eq_refl Hrun eq_refl) as (_ & Hgone & Hr & _).
  split; [exact Hr|exact Hgone].
Defined.

(** X13: a delete removes the object even when another row has the same
    [s3Key]; that row stays in the table, and its key is no longer in the
    bucket. *)
Theorem delete_orphans_sharing_rows (caller pid other : string) (e : Env)
    (w : World) (p q : PdfNote) :
  caller ≠ "" →
  find (has_id pid) (pdf_notes w) = Some p →
  userId p = caller →
  s3_send e (DeleteObjectCommand (BUCKET_NAME e) (s3Key p)) = true →
  other ≠ pid →
  find (has_id other) (pdf_notes w) = Some q →
  s3Key q = s3Key p →
  let w' := (delete_pdfs (Some caller) pid e w).2 in
  find (has_id other) (pdf_notes w') = Some q
  ∧ (s3Key q ∉ s3_objects w').
Proof.
  intros Hc Hp Ho Hs3 Hne Hq Hkey w'. subst w'.
  rewrite (delete_pdfs_run _ _ _ _ Hc), Hp, Ho, String.eqb_refl.
  cbn [negb]. rewrite Hs3.
  assert (s3Key q ∉ s3_objects w ∖ {[s3Key p]}) as Hgone.
  { rewrite Hkey. intros Hin. apply elem_of_difference in Hin as [_ Hin].
    apply Hin. now apply elem_of_singleton. }
  destruct (db_delete e); cbn [snd pdf_notes s3_objects];
    (split; [|exact Hgone]).
  - rewrite find_delete_where_ne by congruence. exact Hq.
  - exact Hq.
Qed.

Lemma delete_orphans_sharing_rows_witness :
  let copy :=
    new_row aws_up
      {| ins_userId := "bob"; ins_title := "Slides";
         ins_description := None;
         ins_s3Key := "pdfs/alice/1730505000000-thesis.pdf";
         ins_fileName := "slides.pdf"; ins_fileSize := 1024;
         ins_mimeType := None; ins_isPublic := None;
         ins_shareToken := None |} in
  let w' := (delete_pdfs (Some "alice") "pdf-1" aws_up
               (holding [thesis false None; copy])).2 in
  find (has_id "pdf-2") (pdf_notes w') = Some copy
  ∧ (s3Key copy ∉ s3_objects w').
Proof.
  intros copy.
  assert ("alice" ≠ "") as Hc by discriminate.
  assert ("pdf-2" ≠ "pdf-1") as Hne by discriminate.
  exact (delete_orphans_sharing_rows "alice" "pdf-1" "pdf-2" aws_up
           (holding [thesis false None; copy]) (thesis false None) copy
           Hc eq_refl eq_refl eq_refl Hne eq_refl eq_refl).
Defined.

(** ** The constraints of the table *)

Lemma id_taken_false (l : list PdfNote) (pid : string) :
  id_taken l pid = false ↔ pid ∉ id <$> l.
Proof.
  unfold id_taken. induction l as [|x l IH]; cbn.
  - split; [intros _; apply not_elem_of_nil|reflexivity].
  - rewrite orb_false_iff, IH, not_elem_of_cons.
    unfold has_id. rewrite String.eqb_neq. split; intros [? ?]; split; auto.
Qed.

Lemma token_taken_false (l : list PdfNote) (pid t : string) :
  token_taken l pid (Some t) = false ↔
  ∀ q, q ∈ l → shareToken q = Some t → id q = pid.
Proof.
  cbn. induction l as [|x l IH]; cbn.
  - split; [|reflexivity]. intros _ q Hq. now apply not_elem_of_nil in Hq.
  - rewrite orb_false_iff, IH. split.
    + intros [Hx Hl] q Hq Ht. apply elem_of_cons in Hq as [->|Hq]; [|eauto].
      apply has_token_true in Ht. rewrite Ht, andb_true_r in Hx.
      apply negb_false_iff in Hx. now apply has_id_true.
    + intros H. split.
      * destruct (has_token x t) eqn:Ht; [|apply andb_false_r].
        apply has_token_true in Ht. rewrite andb_true_r.
        apply negb_false_iff, has_id_true, H; [left|exact Ht].
      * intros q Hq. apply H. now right.
Qed.

Lemma elem_of_update_where (pid : string) (f : PdfNote → PdfNote)
    (l : list PdfNote) (y : PdfNote) :
  y ∈ update_where pid f l →
  ∃ x, x ∈ l ∧ y = if has_id pid x then f x else x.
Proof.
  unfold update_where. intros Hy. apply list_elem_of_In, in_map_iff in Hy.
  destruct Hy as (x & <- & Hx). exists x. split; [|reflexivity].
  now apply list_elem_of_In.
Qed.

Lemma ids_update_where (pid : string) (f : PdfNote → PdfNote)
    (l : list PdfNote) :
  (∀ p, id (f p) = id p) → id <$> update_where pid f l = id <$> l.
Proof.
  intros Hf. unfold update_where. induction l as [|x l IH]; cbn; [reflexivity|].
  f_equal; [|exact IH]. destruct (has_id pid x); [apply Hf|reflexivity].
Qed.

Lemma elem_of_delete_where (pid : string) (l : list PdfNote) (y : PdfNote) :
  y ∈ delete_where pid l → y ∈ l.
Proof.
  unfold delete_where. intros Hy.
  apply list_elem_of_In, filter_In in Hy as [Hy _]. now apply list_elem_of_In.
Qed.

Lemma ids_delete_where (pid : string) (l : list PdfNote) :
  ids_unique l → ids_unique (delete_where pid l).
Proof.
  unfold ids_unique, delete_where. induction l as [|x l IH]; cbn; [trivial|].
  intros H. apply NoDup_cons in H as [Hx Hl].
  destruct (negb (has_id pid x)); cbn; [|now apply IH].
  apply NoDup_cons. split; [|now apply IH].
  intros Hin. apply Hx. apply list_elem_of_fmap in Hin as (y & -> & Hy).
  apply list_elem_of_fmap. exists y. split; [reflexivity|].
  now apply (elem_of_delete_where pid).
Qed.

(** The rows an update or an increment writes keep what the constraints
    look at, apart from the token that a share update sets. *)
Lemma tokens_unique_keep (pid : string) (f : PdfNote → PdfNote)
    (l : list PdfNote) :
  (∀ p, id (f p) = id p) → (∀ p, shareToken (f p) = shareToken p) →
  tokens_unique l → tokens_unique (update_where pid f l).
Proof.
  intros Hid Htok Hl p q t Hp Hq Hpt Hqt.
  apply elem_of_update_where in Hp as (x & Hx & ->).
  apply elem_of_update_where in Hq as (y & Hy & ->).
  assert (∀ z, id (if has_id pid z then f z else z) = id z) as Hid'
    by (intros z; destruct (has_id pid z); [apply Hid|reflexivity]).
  assert (∀ z, shareToken (if has_id pid z then f z else z) = shareToken z)
    as Htok' by (intros z; destruct (has_id pid z); [apply Htok|reflexivity]).
  rewrite !Hid'. rewrite Htok' in Hpt, Hqt. exact (Hl x y t Hx Hy Hpt Hqt).
Qed.

Lemma tokens_unique_share (pid t : string) (public : bool) (now : Z)
    (l : list PdfNote) :
  token_taken l pid (Some t) = false →
  tokens_unique l →
  tokens_unique (update_where pid (set_share public t now) l).
Proof.
  intros Hfree Hl p q t' Hp Hq Hpt Hqt.
  pose proof (proj1 (token_taken_false l pid t) Hfree) as Hheld.
  apply elem_of_update_where in Hp as (x & Hx & ->).
  apply elem_of_update_where in Hq as (y & Hy & ->).
  destruct (has_id pid x) eqn:Ex, (has_id pid y) eqn:Ey; cbn in *.
  - apply has_id_true in Ex, Ey. congruence.
  - injection Hpt as <-. apply has_id_true in Ex.
    rewrite (Hheld y Hy Hqt). exact Ex.
  - injection Hqt as <-. apply has_id_true in Ey.
    rewrite (Hheld x Hx Hpt). now symmetry.
  - exact (Hl x y t' Hx Hy Hpt Hqt).
Qed.

Lemma handle_keeps_constraints (r : Request) (e : Env) (w : World) :
  ids_unique (pdf_notes w) → tokens_unique (pdf_notes w) →
  ids_unique (pdf_notes (handle r e w).2)
  ∧ tokens_unique (pdf_notes (handle r e w).2).
Proof.
  intros Hids Htoks.
  destruct r as [token|session name|session req_body|session pid0 public
                 |session pid0|token|session pid0]; cbn [handle].
  - rewrite get_pdfs_shared_run. destruct (find _ (pdf_notes w)); now split.
  - rewrite post_pdfs_presign_upload_rows. now split.
  - destruct (truthy session) eqn:Hs.
    2: { rewrite unauthorized_create by exact Hs. now split. }
    destruct session as [caller|]; [|discriminate].
    apply truthy_Some in Hs. rewrite (post_pdfs_run _ _ _ _ Hs).
    destruct (insertPdfNoteSchema_parse _) as [ins|]; [|now split].
    cbv zeta. destruct (id_taken _ _) eqn:Hid; [now split|].
    destruct (token_taken _ _ _) eqn:Htok; [now split|].
    cbn [orb snd pdf_notes]. apply id_taken_false in Hid. split.
    + unfold ids_unique. rewrite fmap_app. apply NoDup_app.
      split; [exact Hids|]. split; [|apply NoDup_singleton].
      intros x Hx Hx'. apply list_elem_of_singleton in Hx'. now subst x.
    + intros p q t Hp Hq Hpt Hqt.
      apply elem_of_app in Hp as [Hp|Hp], Hq as [Hq|Hq].
      * exact (Htoks p q t Hp Hq Hpt Hqt).
      * apply list_elem_of_singleton in Hq. subst q. rewrite Hqt in Htok.
        exact (proj1 (token_taken_false _ _ _) Htok p Hp Hpt).
      * apply list_elem_of_singleton in Hp. subst p. rewrite Hpt in Htok.
        symmetry. exact (proj1 (token_taken_false _ _ _) Htok q Hq Hqt).
      * apply list_elem_of_singleton in Hp, Hq. now subst.
  - destruct (truthy session) eqn:Hs.
    2: { rewrite unauthorized_share by exact Hs. now split. }
    destruct session as [caller|]; [|discriminate].
    apply truthy_Some in Hs. rewrite (post_pdfs_share_run _ _ _ _ _ Hs).
    destruct (find (has_id pid0) (pdf_notes w)) as [q|]; [|now split].
    destruct (negb _); [now split|]. cbv zeta.
    destruct (token_taken _ _ _) eqn:Htok; [now split|].
    cbn [snd pdf_notes]. split.
    + unfold ids_unique. now rewrite ids_update_where by apply set_share_id.
    + now apply tokens_unique_share.
  - rewrite get_pdfs_download_run.
    destruct (find (has_id pid0) (pdf_notes w)) as [q|]; [|now split].
    destruct (_ && _); [now split|]. cbv zeta.
    destruct (getSignedUrl e _ 300); [|now split]. cbn [snd pdf_notes]. split.
    + unfold ids_unique.
      now rewrite ids_update_where by apply count_download_id.
    + now apply tokens_unique_keep.
  - rewrite get_pdfs_shared_download_run.
    destruct (find _ (pdf_notes w)) as [q|]; [|now split]. cbv zeta.
    destruct (getSignedUrl e _ 300); [|now split]. cbn [snd pdf_notes]. split.
    + unfold ids_unique.
      now rewrite ids_update_where by apply count_download_id.
    + now apply tokens_unique_keep.
  - destruct (truthy session) eqn:Hs.
    2: { rewrite unauthorized_delete by exact Hs. now split. }
    destruct session as [caller|]; [|discriminate].
    apply truthy_Some in Hs. rewrite (delete_pdfs_run _ _ _ _ Hs).
    destruct (find (has_id pid0) (pdf_notes w)) as [q|]; [|now split].
    destruct (negb _); [now split|].
    destruct (s3_send e _); [|now split].
    destruct (db_delete e); [|now split]. cbn [snd pdf_notes]. split.
    + now apply ids_delete_where.
    + intros p p' t Hp Hp'.
      apply elem_of_delete_where in Hp, Hp'. now apply Htoks.
Qed.

Lemma ids_unique_same_row (l : list PdfNote) (p q : PdfNote) :
  ids_unique l → p ∈ l → q ∈ l → id p = id q → p = q.
Proof.
  unfold ids_unique. induction l as [|x l IH]; cbn.
  - intros _ Hp. now apply not_elem_of_nil in Hp.
  - intros H Hp Hq Hid. apply NoDup_cons in H as [Hx Hl].
    apply elem_of_cons in Hp as [->|Hp], Hq as [->|Hq].
    + reflexivity.
    + exfalso. apply Hx. rewrite Hid. now apply list_elem_of_fmap_2.
    + exfalso. apply Hx. rewrite <- Hid. now apply list_elem_of_fmap_2.
    + now apply IH.
Qed.

(** X14: the constraints of [pdf_notes] hold in every state the server
    reaches from a table that satisfies them (the empty table does): no
    two rows have the same id, and no two rows have the same share token;
    so a share link names at most one document. *)
Theorem table_constraints_kept (rs : list (Env * Request)) (w : World) :
  ids_unique (pdf_notes w) → tokens_unique (pdf_notes w) →
  let l := pdf_notes (serve rs w) in
  ids_unique l ∧ tokens_unique l
  ∧ ∀ p q t, p ∈ l → q ∈ l →
      shareToken p = Some t → shareToken q = Some t → p = q.
Proof.
  revert w. induction rs as [|[e r] rs IH]; intros w Hids Htoks; cbn [serve].
  - cbv zeta. split; [exact Hids|]. split; [exact Htoks|].
    intros p q t Hp Hq Hpt Hqt.
    exact (ids_unique_same_row _ p q Hids Hp Hq (Htoks p q t Hp Hq Hpt Hqt)).
  - destruct (handle_keeps_constraints r e w Hids Htoks) as [Hids' Htoks'].
    exact (IH _ Hids' Htoks').
Qed.

Lemma table_constraints_kept_witness :
  ids_unique
    (pdf_notes
       (serve [(aws_up, CreatePdf (Some "alice") upload_fields);
               (aws_up, CreatePdf (Some "bob") upload_fields);
               (aws_up, SharePdf (Some "alice") "pdf-2" true)]
          (holding []))).
Proof.
  apply (table_constraints_kept _ (holding [])).
  - apply NoDup_nil_2.
  - intros p q t Hp. now apply not_elem_of_nil in Hp.
Defined.

(** ** Upload keys of different users *)

Lemma hex_digit_no_slash (n : N) : Ascii.eqb (hex_digit n) "/" = false.
Proof.
  destruct n as [|p]; [reflexivity|].
  repeat (reflexivity || destruct p as [p|p|]).
Qed.

Lemma no_slash_app (a b : string) :
  no_slash (a +:+ b) = no_slash a && no_slash b.
Proof.
  induction a as [|c a IH]; [reflexivity|].
  change (no_slash (String c (a +:+ b)) = no_slash (String c a) && no_slash b).
  cbn [no_slash]. now rewrite IH, andb_assoc.
Qed.

Lemma hex_no_slash (digits : nat) (v : N) (acc : string) :
  no_slash acc = true → no_slash (hex digits v acc) = true.
Proof.
  revert v acc. induction digits as [|d IH]; intros v acc Hacc; [exact Hacc|].
  cbn [hex]. apply IH. cbn [no_slash].
  now rewrite hex_digit_no_slash, Hacc.
Qed.

(** A UUID has no [/] in it. *)
Lemma randomUUID_no_slash (bits : N) : no_slash (randomUUID bits) = true.
Proof.
  unfold randomUUID. rewrite !no_slash_app. cbn [no_slash].
  rewrite hex_digit_no_slash, !hex_no_slash by reflexivity. reflexivity.
Qed.

Lemma segment_inj (a b x y : string) :
  no_slash a = true → no_slash b = true →
  a +:+ "/" +:+ x = b +:+ "/" +:+ y → a = b ∧ x = y.
Proof.
  revert b. induction a as [|c a IH]; intros [|c' b]; cbn; intros Ha Hb H.
  - injection H as H. simpl in H. now split.
  - injection H as <- _. discriminate Hb.
  - injection H as -> _. discriminate Ha.
  - injection H as -> H.
    apply andb_true_iff in Ha as [_ Ha], Hb as [_ Hb].
    destruct (IH b Ha Hb H) as [-> ->]. now split.
Qed.

(** X15: upload keys of different users never coincide: when neither user
    id contains a [/], which holds for the UUIDs that registration hands
    out, a key determines the user, the millisecond and the file name it
    was made from. *)
Theorem upload_keys_disjoint :
  (∀ (o1 o2 : string) (t1 t2 : N) (n1 n2 : string),
     no_slash o1 = true → no_slash o2 = true →
     upload_key o1 t1 n1 = upload_key o2 t2 n2 →
     o1 = o2 ∧ t1 = t2 ∧ n1 = n2)
  ∧ (∀ (b1 b2 : N) (t1 t2 : N) (n1 n2 : string),
       upload_key (randomUUID b1) t1 n1 = upload_key (randomUUID b2) t2 n2 →
       randomUUID b1 = randomUUID b2 ∧ t1 = t2 ∧ n1 = n2).
Proof.
  assert (∀ (o1 o2 : string) (t1 t2 : N) (n1 n2 : string),
     no_slash o1 = true → no_slash o2 = true →
     upload_key o1 t1 n1 = upload_key o2 t2 n2 →
     o1 = o2 ∧ t1 = t2 ∧ n1 = n2) as H.
  { intros o1 o2 t1 t2 n1 n2 H1 H2 H. unfold upload_key in H.
    apply (append_inv_head "pdfs/") in H.
    apply segment_inj in H as [-> H]; [|exact H1|exact H2].
    split; [reflexivity|]. now apply decimal_dash_inj. }
  split; [exact H|].
  intros b1 b2 t1 t2 n1 n2.
  apply H; apply randomUUID_no_slash.
Qed.

Lemma upload_keys_disjoint_witness :
  "alice" = "alice" ∧ 5%N = 5%N ∧ "a/b.pdf" = "a/b.pdf".
Proof.
  exact (proj1 upload_keys_disjoint "alice" "alice" 5%N 5%N
           "a/b.pdf" "a/b.pdf" eq_refl eq_refl eq_refl).
Defined.

(** ** [formatFileSize] *)

Lemma tenths_bounds (num den : Z) :
  (0 < den)%Z →
  (Z.abs (den * tenths num den - 10 * num) * 2 ≤ den)%Z.
Proof.
  intros Hden. unfold tenths.
  pose proof (Z.div_mod (20 * num + den) (2 * den)) as Hdm.
  pose proof (Z.mod_pos_bound (20 * num + den) (2 * den)) as Hmod.
  lia.
Qed.

Lemma tenths_mono (a b den : Z) :
  (0 < den)%Z → (a ≤ b)%Z → (tenths a den ≤ tenths b den)%Z.
Proof.
  intros Hden Hab. unfold tenths. apply Z.div_le_mono; lia.
Qed.

(** X16: [formatFileSize] shows bytes below 1024 as they are, and above
    that the size in KB (below 1024 * 1024) or in MB (there is no larger
    unit) with one decimal, which is within a twentieth of a unit of the
    true size; in either unit a larger size never gets fewer tenths. *)
Theorem formatFileSize_accuracy (bytes : Z) :
  ((bytes < 1024)%Z →
     formatFileSize bytes = number_to_string bytes +:+ " B")
  ∧ ((1024 ≤ bytes < 1024 * 1024)%Z →
       let n := tenths bytes 1024 in
       formatFileSize bytes
       = decimal (Z.to_N (n / 10)) +:+ "." +:+ decimal (Z.to_N (n mod 10))
         +:+ " KB"
       ∧ (10 ≤ n ≤ 10240)%Z
       ∧ (Z.abs (1024 * n - 10 * bytes) * 2 ≤ 1024)%Z
       ∧ ∀ more, (bytes ≤ more)%Z → (n ≤ tenths more 1024)%Z)
  ∧ ((1024 * 1024 ≤ bytes < 2 ^ 53)%Z →
       let n := tenths bytes (1024 * 1024) in
       formatFileSize bytes
       = decimal (Z.to_N (n / 10)) +:+ "." +:+ decimal (Z.to_N (n mod 10))
         +:+ " MB"
       ∧ (10 ≤ n)%Z
       ∧ (Z.abs (1024 * 1024 * n - 10 * bytes) * 2 ≤ 1024 * 1024)%Z
       ∧ ∀ more, (bytes ≤ more)%Z → (n ≤ tenths more (1024 * 1024))%Z).
Proof.
  split; [|split].
  - intros H. unfold formatFileSize. apply Z.ltb_lt in H. now rewrite H.
  - intros [Hlo Hhi] n. unfold formatFileSize.
    apply Z.ltb_ge in Hlo. apply Z.ltb_lt in Hhi. rewrite Hlo, Hhi.
    apply Z.ltb_ge in Hlo. apply Z.ltb_lt in Hhi.
    split; [unfold toFixed_1; fold n; now rewrite append_assoc, append_assoc|].
    pose proof (tenths_bounds bytes 1024 eq_refl) as Hb. fold n in Hb.
    split; [lia|]. split; [exact Hb|].
    intros more Hmore. now apply tenths_mono.
  - intros [Hlo _] n. unfold formatFileSize.
    assert ((bytes <? 1024)%Z = false) as -> by (apply Z.ltb_ge; lia).
    apply Z.ltb_ge in Hlo. rewrite Hlo. apply Z.ltb_ge in Hlo.
    split; [unfold toFixed_1; fold n; now rewrite append_assoc, append_assoc|].
    pose proof (tenths_bounds bytes (1024 * 1024) eq_refl) as Hb. fold n in Hb.
    split; [lia|]. split; [exact Hb|].
    intros more Hmore. now apply tenths_mono.
Qed.

Lemma formatFileSize_accuracy_witness :
  formatFileSize 1023 = "1023 B"
  ∧ formatFileSize 1280 = "1.3 KB"
  ∧ formatFileSize 5000000 = "4.8 MB".
Proof.
  split; [|split].
  - apply (proj1 (formatFileSize_accuracy 1023)). lia.
  - apply (proj1 (proj2 (formatFileSize_accuracy 1280))). lia.
  - apply (proj2 (proj2 (formatFileSize_accuracy 5000000))). lia.
Defined.

(** X17: because the KB branch rounds, the last 51 sizes below
    1024 * 1024 bytes are shown as "1024.0 KB", while 1024 * 1024 itself is
    shown as "1.0 MB". *)
Theorem formatFileSize_rounds_up_to_1024_KB (bytes : Z) :
  (1048525 ≤ bytes < 1024 * 1024)%Z →
  formatFileSize bytes = "1024.0 KB" ∧ formatFileSize (1024 * 1024) = "1.0 MB".
Proof.
  intros [Hlo Hhi]. split; [|reflexivity].
  unfold formatFileSize.
  assert ((bytes <? 1024)%Z = false) as -> by (apply Z.ltb_ge; lia).
  apply Z.ltb_lt in Hhi. rewrite Hhi. apply Z.ltb_lt in Hhi.
  unfold toFixed_1.
  assert (tenths bytes 1024 = 10240%Z) as ->; [|reflexivity].
  unfold tenths. symmetry. apply (Z.div_unique _ _ _ (20 * bytes - 20970496)).
  - left. lia.
  - lia.
Qed.

Lemma formatFileSize_rounds_up_to_1024_KB_witness :
  formatFileSize 1048575 = "1024.0 KB".
Proof.
  apply (formatFileSize_rounds_up_to_1024_KB 1048575). lia.
Defined.

(** ** Only the owner *)

(** X18: the download by id tells whether an id exists: whoever asks, with
    or without a session, the answer is 404 exactly when no row has the
    id, so that a private document answers 403 to a stranger where an
    unknown id answers 404. *)
Theorem download_by_id_reveals_existence (session : option string)
    (pid : string) (e : Env) (w : World) :
  ((get_pdfs_download session pid e w).1 = NotFound
   ↔ find (has_id pid) (pdf_notes w) = None)
  ∧ (∀ p, find (has_id pid) (pdf_notes w) = Some p →
       isPublic p = false → session ≠ Some (userId p) →
       get_pdfs_download session pid e w = (Forbidden, w)).
Proof.
  rewrite get_pdfs_download_run.
  destruct (find (has_id pid) (pdf_notes w)) as [p|].
  - split.
    + split; [|discriminate].
      destruct (_ && _); [discriminate|]. cbv zeta.
      destruct (getSignedUrl e _ 300); discriminate.
    + intros q [= <-] Hpub Ho. rewrite Hpub.
      destruct (same_user (userId p) session) eqn:E; [|reflexivity].
      apply same_user_true in E. contradiction.
  - split; [now split|discriminate].
Qed.

Lemma download_by_id_reveals_existence_witness :
  get_pdfs_download None "pdf-1" aws_up (holding [thesis false None])
  = (Forbidden, holding [thesis false None]).
Proof.
  apply (proj2 (download_by_id_reveals_existence None "pdf-1" aws_up
                  (holding [thesis false None])) (thesis false None));
    [reflexivity|reflexivity|discriminate].
Defined.

(** X19: the visibility and the share token of a document change only
    through a toggle that its owner sends for it: if a request leaves the
    row with another [isPublic] or another [shareToken], the request is a
    [POST /api/pdfs/:id/share] for that id from the session of the row's
    owner. *)
Theorem only_owner_changes_sharing (r : Request) (e : Env) (w : World)
    (pid : string) (p p' : PdfNote) :
  find (has_id pid) (pdf_notes w) = Some p →
  find (has_id pid) (pdf_notes (handle r e w).2) = Some p' →
  isPublic p' ≠ isPublic p ∨ shareToken p' ≠ shareToken p →
  ∃ public, r = SharePdf (Some (userId p)) pid public ∧ userId p ≠ "".
Proof.
  intros Hp Hp' Hdiff.
  assert (find (has_id pid) (pdf_notes w) = Some p' → False) as Hsame.
  { rewrite Hp. intros [= <-]. destruct Hdiff as [H|H]; now apply H. }
  assert (∀ pid0 now,
    find (has_id pid) (update_where pid0 (count_download now) (pdf_notes w))
    = Some p' → False) as Hcount.
  { intros pid0 now H.
    rewrite find_update_where, Hp in H by apply count_download_id.
    injection H as <-.
    destruct (has_id pid0 p); destruct Hdiff as [H|H]; now apply H. }
  destruct r as [token|session name|session req_body|session pid0 public
                 |session pid0|token|session pid0]; cbn [handle] in Hp'.
  - rewrite get_pdfs_shared_run in Hp'.
    destruct (find (λ q, has_token q token && isPublic q) (pdf_notes w));
      now apply Hsame in Hp'.
  - rewrite post_pdfs_presign_upload_rows in Hp'. now apply Hsame in Hp'.
  - exfalso. destruct (truthy session) eqn:Hs.
    2: { rewrite unauthorized_create in Hp' by exact Hs. auto. }
    destruct session as [caller|]; [|discriminate].
    apply truthy_Some in Hs. rewrite (post_pdfs_run _ _ _ _ Hs) in Hp'.
    destruct (insertPdfNoteSchema_parse _) as [ins|]; [|auto].
    cbv zeta in Hp'. destruct (_ || _); [auto|]. cbn [snd pdf_notes] in Hp'.
    rewrite (find_app_old _ _ p _ Hp) in Hp'. injection Hp' as <-.
    destruct Hdiff as [H|H]; now apply H.
  - destruct (truthy session) eqn:Hs.
    2: { rewrite unauthorized_share in Hp' by exact Hs.
         now apply Hsame in Hp'. }
    destruct session as [caller|]; [|discriminate].
    apply truthy_Some in Hs. rewrite (post_pdfs_share_run _ _ _ _ _ Hs) in Hp'.
    destruct (find (has_id pid0) (pdf_notes w)) as [q|] eqn:Hq;
      [|now apply Hsame in Hp'].
    destruct (String.eqb (userId q) caller) eqn:Ho;
      [|now apply Hsame in Hp'].
    cbv beta iota zeta in Hp'. simpl negb in Hp'. cbv iota in Hp'.
    destruct (token_taken _ _ _); [now apply Hsame in Hp'|].
    cbn [snd pdf_notes] in Hp'.
    destruct (decide (pid0 = pid)) as [->|Hne].
    + rewrite Hp in Hq. injection Hq as <-.
      apply String.eqb_eq in Ho. subst caller. eauto.
    + rewrite find_update_where_ne in Hp'
        by (apply set_share_id || exact Hne).
      now apply Hsame in Hp'.
  - exfalso. rewrite get_pdfs_download_run in Hp'.
    destruct (find (has_id pid0) (pdf_notes w)) as [q|]; [|auto].
    destruct (_ && _); [auto|]. cbv zeta in Hp'.
    destruct (getSignedUrl e _ 300); [|auto].
    exact (Hcount _ _ Hp').
  - exfalso. rewrite get_pdfs_shared_download_run in Hp'.
    destruct (find (λ q, has_token q token && isPublic q) (pdf_notes w))
      as [q|]; [|auto].
    cbv zeta in Hp'. destruct (getSignedUrl e _ 300); [|auto].
    exact (Hcount _ _ Hp').
  - exfalso. destruct (truthy session) eqn:Hs.
    2: { rewrite unauthorized_delete in Hp' by exact Hs. auto. }
    destruct session as [caller|]; [|discriminate].
    apply truthy_Some in Hs. rewrite (delete_pdfs_run _ _ _ _ Hs) in Hp'.
    destruct (find (has_id pid0) (pdf_notes w)) as [q|]; [|auto].
    destruct (negb _); [auto|].
    destruct (s3_send e _); [|auto].
    destruct (db_delete e); [|auto]. cbn [snd pdf_notes] in Hp'.
    destruct (decide (pid0 = pid)) as [->|Hne].
    + rewrite find_delete_where in Hp'. discriminate.
    + rewrite find_delete_where_ne in Hp' by exact Hne. auto.
Qed.

Lemma only_owner_changes_sharing_witness :
  ∃ public,
    SharePdf (Some "alice") "pdf-1" true
    = SharePdf (Some (userId (thesis false None))) "pdf-1" public
    ∧ userId (thesis false None) ≠ "".
Proof.
  apply (only_owner_changes_sharing (SharePdf (Some "alice") "pdf-1" true)
           aws_up (holding [thesis false None]) "pdf-1" (thesis false None)
           (set_share true "40000000-0000-4000-8000-000000000000"
              1730505600 (thesis false None)));
    [reflexivity|reflexivity|].
  left. discriminate.
Defined.

Lemma post_pdfs_presign_upload_objects (session name : option string)
    (e : Env) (w : World) :
  s3_objects (post_pdfs_presign_upload session name e w).2 = s3_objects w.
Proof.
  unfold post_pdfs_presign_upload, try_catch, require, generateUploadUrl,
    signed_url, bind, emit, ask, ret, reply, throw.
  destruct session as [s|]; [|reflexivity].
  destruct (String.eqb s ""); [reflexivity|].
  destruct name as [n|]; [|reflexivity].
  destruct (String.eqb n ""); [reflexivity|].
  simpl. destruct (getSignedUrl e _ 300); reflexivity.
Qed.

(** What a delete by the owner leaves, when the bucket accepts it: the
    object is gone, and so is the row if the repository accepts too. *)
Lemma delete_by_owner (session : option string) (pid : string) (e : Env)
    (w : World) :
  (delete_pdfs session pid e w).2 = w
  ∨ ∃ p, find (has_id pid) (pdf_notes w) = Some p
         ∧ session = Some (userId p) ∧ userId p ≠ ""
         ∧ s3_send e (DeleteObjectCommand (BUCKET_NAME e) (s3Key p)) = true
         ∧ pdf_notes (delete_pdfs session pid e w).2
           = (if db_delete e then delete_where pid (pdf_notes w)
              else pdf_notes w)
         ∧ s3_objects (delete_pdfs session pid e w).2
           = s3_objects w ∖ {[s3Key p]}.
Proof.
  destruct (truthy session) eqn:Hs.
  2: { left. now rewrite unauthorized_delete by exact Hs. }
  destruct session as [caller|]; [|discriminate].
  apply truthy_Some in Hs. rewrite (delete_pdfs_run _ _ _ _ Hs).
  destruct (find (has_id pid) (pdf_notes w)) as [p|]; [|now left].
  destruct (String.eqb (userId p) caller) eqn:Ho; [|now left].
  cbn [negb]. destruct (s3_send e _) eqn:Hs3; [|now left].
  right. exists p. apply String.eqb_eq in Ho. subst caller.
  destruct (db_delete e); repeat split; assumption || reflexivity.
Qed.

(** X20: rows and objects go away only through a delete that the owner
    sends: if a request makes a row disappear or changes the bucket, it is
    a [DELETE /api/pdfs/:id] from the session of that row's owner, which
    the bucket accepted, and the bucket has lost that row's key and
    nothing else. *)
Theorem only_owner_deletes (r : Request) (e : Env) (w : World) :
  let w' := (handle r e w).2 in
  (∀ pid p,
     find (has_id pid) (pdf_notes w) = Some p →
     find (has_id pid) (pdf_notes w') = None →
     r = DeletePdf (Some (userId p)) pid ∧ userId p ≠ ""
     ∧ s3_send e (DeleteObjectCommand (BUCKET_NAME e) (s3Key p)) = true)
  ∧ (s3_objects w' ≠ s3_objects w →
       ∃ pid p,
         r = DeletePdf (Some (userId p)) pid
         ∧ find (has_id pid) (pdf_notes w) = Some p
         ∧ s3_objects w' = s3_objects w ∖ {[s3Key p]}).
Proof.
  intros w'. subst w'. split.
  - intros pid p Hp Hgone.
    assert (¬ spares pid r) as Hr.
    { intros Hr. destruct (handle_keeps_row r e w pid p Hr Hp) as (q & Hq & _).
      rewrite Hq in Hgone. discriminate. }
    destruct r as [| | | | | |session pid0]; try (exfalso; now apply Hr).
    cbn [spares] in Hr. destruct (decide (pid0 = pid)) as [->|]; [|tauto].
    cbn [handle] in Hgone.
    destruct (delete_by_owner session pid e w)
      as [Hsame|(q & Hq & -> & Hne & Hs3 & _)].
    + rewrite Hsame, Hp in Hgone. discriminate.
    + rewrite Hp in Hq. injection Hq as <-. now repeat split.
  - intros Hdiff.
    destruct r as [token|session name|session req_body|session pid0 public
                   |session pid0|token|session pid0]; cbn [handle] in *.
    + exfalso. apply Hdiff. rewrite get_pdfs_shared_run.
      now destruct (find _ (pdf_notes w)).
    + exfalso. apply Hdiff. apply post_pdfs_presign_upload_objects.
    + exfalso. apply Hdiff. destruct (truthy session) eqn:Hs.
      2: { now rewrite unauthorized_create by exact Hs. }
      destruct session as [caller|]; [|discriminate].
      apply truthy_Some in Hs. rewrite (post_pdfs_run _ _ _ _ Hs).
      destruct (insertPdfNoteSchema_parse _) as [ins|]; [|reflexivity].
      cbv zeta. now destruct (_ || _).
    + exfalso. apply Hdiff. destruct (truthy session) eqn:Hs.
      2: { now rewrite unauthorized_share by exact Hs. }
      destruct session as [caller|]; [|discriminate].
      apply truthy_Some in Hs. rewrite (post_pdfs_share_run _ _ _ _ _ Hs).
      destruct (find _ (pdf_notes w)) as [q|]; [|reflexivity].
      destruct (negb _); [reflexivity|]. cbv zeta.
      now destruct (token_taken _ _ _).
    + exfalso. apply Hdiff. rewrite get_pdfs_download_run.
      destruct (find _ (pdf_notes w)) as [q|]; [|reflexivity].
      destruct (_ && _); [reflexivity|]. cbv zeta.
      now destruct (getSignedUrl e _ 300).
    + exfalso. apply Hdiff. rewrite get_pdfs_shared_download_run.
      destruct (find _ (pdf_notes w)) as [q|]; [|reflexivity]. cbv zeta.
      now destruct (getSignedUrl e _ 300).
    + destruct (delete_by_owner session pid0 e w)
        as [Hsame|(q & Hq & -> & _ & _ & _ & Hobj)].
      * exfalso. apply Hdiff. now rewrite Hsame.
      * exists pid0, q. now repeat split.
Qed.

Lemma only_owner_deletes_witness :
  DeletePdf (Some "alice") "pdf-1"
  = DeletePdf (Some (userId (thesis false None))) "pdf-1"
  ∧ userId (thesis false None) ≠ ""
  ∧ s3_send aws_up
      (DeleteObjectCommand (BUCKET_NAME aws_up) (s3Key (thesis false None)))
    = true.
Proof.
  apply (proj1 (only_owner_deletes (DeletePdf (Some "alice") "pdf-1") aws_up
                  (holding [thesis false None]))
           "pdf-1" (thesis false None)); reflexivity.
Defined.

(** ** The upload of the dashboard page *)

Lemma z_varchar_fits (n : nat) (s : string) :
  String.length s ≤ n → z_varchar n (Some (JStr s)) = Some s.
Proof. intros H. cbn. apply Nat.leb_le in H. now rewrite H. Qed.

Lemma z_varchar_too_long (n : nat) (s : string) :
  n < String.length s → z_varchar n (Some (JStr s)) = None.
Proof. intros H. cbn. apply Nat.leb_gt in H. now rewrite H. Qed.

Lemma z_integer_fits (n : Z) :
  (-2147483648 ≤ n ≤ 2147483647)%Z → z_integer (Some (JNum n)) = Some n.
Proof.
  intros [Hlo Hhi]. cbn.
  apply Z.leb_le in Hlo, Hhi. now rewrite Hlo, Hhi.
Qed.

Lemma z_integer_out_of_range (n : Z) :
  (n < -2147483648 ∨ 2147483647 < n)%Z → z_integer (Some (JNum n)) = None.
Proof.
  intros H. cbn.
  destruct (Z.leb_spec (-2147483648) n), (Z.leb_spec n 2147483647);
    cbn; [lia|reflexivity..].
Qed.

Lemma upload_metadata_lookup (caller form_title : string)
    (form_description : option string) (key file_name file_type : string)
    (file_size : Z) :
  let o := <["userId" := JStr caller]>
             (upload_metadata form_title form_description key file_name
                file_type file_size) in
  o !! "userId" = Some (JStr caller)
  ∧ o !! "title" = Some (JStr form_title)
  ∧ o !! "description" = Some (JStr (or_else form_description ""))
  ∧ o !! "s3Key" = Some (JStr key)
  ∧ o !! "fileName" = Some (JStr file_name)
  ∧ o !! "fileSize" = Some (JNum file_size)
  ∧ o !! "mimeType"
    = Some (JStr (or_else (Some file_type) "application/pdf"))
  ∧ o !! "isPublic" = None
  ∧ o !! "shareToken" = None.
Proof.
  unfold upload_metadata. cbn [list_to_map foldr].
  repeat split; now simplify_map_eq.
Qed.

Lemma upload_metadata_parse (caller form_title : string)
    (form_description : option string) (key file_name file_type : string)
    (file_size : Z) :
  String.length form_title ≤ 500 →
  String.length key ≤ 1000 →
  String.length file_name ≤ 500 →
  String.length (or_else (Some file_type) "application/pdf") ≤ 100 →
  (-2147483648 ≤ file_size ≤ 2147483647)%Z →
  insertPdfNoteSchema_parse
    (<["userId" := JStr caller]>
       (upload_metadata form_title form_description key file_name file_type
          file_size))
  = Some {| ins_userId := caller; ins_title := form_title;
            ins_description := Some (or_else form_description "");
            ins_s3Key := key; ins_fileName := file_name;
            ins_fileSize := file_size;
            ins_mimeType :=
              Some (or_else (Some file_type) "application/pdf");
            ins_isPublic := None; ins_shareToken := None |}.
Proof.
  intros Ht Hk Hn Hm Hs.
  destruct (upload_metadata_lookup caller form_title form_description key
              file_name file_type file_size)
    as (Lu & Lt & Ld & Lk & Ln & Ls & Lm & Lp & Lsh).
  apply insertPdfNoteSchema_parse_all.
  rewrite Lu, Lt, Ld, Lk, Ln, Ls, Lm, Lp, Lsh.
  cbn [ins_userId ins_title ins_description ins_s3Key ins_fileName
       ins_fileSize ins_mimeType ins_isPublic ins_shareToken].
  rewrite !z_varchar_fits, z_integer_fits by assumption.
  repeat split. cbn [z_varchar_optional].
  apply Nat.leb_le in Hm. now rewrite Hm.
Qed.

Lemma upload_metadata_refused (caller form_title : string)
    (form_description : option string) (key file_name file_type : string)
    (file_size : Z) :
  500 < String.length form_title ∨ 500 < String.length file_name
  ∨ (file_size < -2147483648)%Z ∨ (2147483647 < file_size)%Z →
  insertPdfNoteSchema_parse
    (<["userId" := JStr caller]>
       (upload_metadata form_title form_description key file_name file_type
          file_size))
  = None.
Proof.
  intros Hbad.
  destruct (upload_metadata_lookup caller form_title form_description key
              file_name file_type file_size)
    as (_ & Lt & _ & _ & Ln & Ls & _).
  destruct (insertPdfNoteSchema_parse _) as [ins|] eqn:Hparse; [|reflexivity].
  apply insertPdfNoteSchema_parse_all in Hparse
    as (_ & Ht & _ & _ & Hn & Hs & _).
  rewrite Lt in Ht. rewrite Ln in Hn. rewrite Ls in Hs.
  destruct Hbad as [H|[H|H]].
  - now rewrite z_varchar_too_long in Ht by exact H.
  - now rewrite z_varchar_too_long in Hn by exact H.
  - now rewrite z_integer_out_of_range in Hs by exact H.
Qed.


